(** * Shallow embedding of the HDF5 scan front-end and of the template
      expression helper of the polars fork.

    Sources embedded here:
    - [py-polars/polars/io/hdf5/functions.py]
        ([read_hdf5], [scan_hdf5], [_scan_hdf5_impl]);
    - [py-polars/src/polars/_utils/TC_expressions.py] ([trans_func]).

    Python values are modelled by inductive types, exceptions by a record
    holding the class name and the message, and every call that may raise
    returns an [Outcome].  Text is ASCII: a Python [str] is a Rocq
    [string]. *)

From Stdlib Require Import String Ascii ZArith List Bool Lia.
From Stdlib Require Import DecimalString.
Import ListNotations.

Open Scope string_scope.
Open Scope Z_scope.

(* ================================================================== *)
(** * Python runtime: exceptions and outcomes                          *)
(* ================================================================== *)

(** A raised exception: its class name and [str(e)]. *)
Record PyExc : Type := mkExc { exc_class : string; exc_msg : string }.

(** Result of running a piece of Python.  [Unmodelled] marks an input that
    leaves the fragment of the host language or of the engine that this
    development describes; nothing is claimed about such runs. *)
Inductive Outcome (A : Type) : Type :=
| Ok (a : A)
| Raise (e : PyExc)
| Unmodelled.

Arguments Ok {A} a.
Arguments Raise {A} e.
Arguments Unmodelled {A}.

Definition bind {A B : Type} (m : Outcome A) (k : A -> Outcome B) : Outcome B :=
  match m with
  | Ok a => k a
  | Raise e => Raise e
  | Unmodelled => Unmodelled
  end.

Notation "x <- m ;; k" := (bind m (fun x => k))
  (at level 61, m at next level, right associativity).

(** A list comprehension [[f(x) for x in xs]]: elements are computed from
    left to right and the first exception escapes. *)
Fixpoint comprehension {A B : Type} (f : A -> Outcome B) (xs : list A)
  : Outcome (list B) :=
  match xs with
  | [] => Ok []
  | x :: rest =>
      y <- f x ;;
      ys <- comprehension f rest ;;
      Ok (y :: ys)
  end.

(** [l[i]] on a Python list: positions [0 .. len-1] count from the front,
    [-len .. -1] from the back, anything else raises [IndexError].  The
    interpreter first turns the index into a machine index of 64 bits and
    raises an [IndexError] of its own when it does not fit.  A list has
    fewer than 2^63 elements, so an index that does not fit is also out of
    range, and testing the range first gives the same outcome. *)
Definition index_error : PyExc := mkExc "IndexError" "list index out of range".

Definition index_too_large : PyExc :=
  mkExc "IndexError" "cannot fit 'int' into an index-sized integer".

Definition fits_index (i : Z) : bool := (- 2 ^ 63 <=? i) && (i <? 2 ^ 63).

Definition py_getitem {A : Type} (l : list A) (i : Z) : Outcome A :=
  let n := Z.of_nat (length l) in
  let pos := if i <? 0 then i + n else i in
  if (0 <=? pos) && (pos <? n) then
    match nth_error l (Z.to_nat pos) with
    | Some x => Ok x
    | None => Raise index_error
    end
  else if fits_index i then Raise index_error
  else Raise index_too_large.

(** The exception an index outside the list raises. *)
Definition index_failure (i : Z) : PyExc :=
  if fits_index i then index_error else index_too_large.

(* ================================================================== *)
(** * Tables                                                           *)
(* ================================================================== *)

(** A realised table: ordered, named integer columns.  A cell is a signed
    64-bit integer, the engine's default integer type. *)
Definition Series : Type := list Z.
Definition Column : Type := (string * Series)%type.
Definition DataFrame : Type := list Column.

Definition column_names (df : DataFrame) : list string := map fst df.

Definition height (df : DataFrame) : nat :=
  match df with
  | [] => 0%nat
  | (_, s) :: _ => length s
  end.

(* ================================================================== *)
(** * polars/io/hdf5/functions.py                                      *)
(* ================================================================== *)

(** The values a caller may pass as [source]. *)
#[warnings="-register-all"]
Inductive PyObj : Type :=
| PStr (s : string)
| PPath (p : string)
| PBytes (b : string)
| PFile
| PNone
| PInt (n : Z)
| PList (items : list PyObj).

(** Arguments received by [PyLazyFrame.new_from_hdf5]; the handle it
    returns is the record of that call. *)
Record PyLazyFrame : Type := new_from_hdf5 {
  arg_source : option string;
  arg_sources : list string;
  arg_subgroup : option string;
  arg_format : option string
}.

(** A deferred frame: the wrapped scan, or a projection of a deferred frame. *)
Inductive LazyFrame : Type :=
| wrap_ldf (pylf : PyLazyFrame)
| Select (lf : LazyFrame) (names : list string).

(** One element of the [columns] argument. *)
Inductive ColItem : Type :=
| ItemInt (i : Z)
| ItemStr (s : string).

(** Modelled from the spec: the collaborators that are not part of these
    two files.  [normalize_filepath] is the path normaliser of
    [polars._utils.various] (section 4.1: pure, no file-system access);
    [lf_columns] is [engine.schemaOf], [lf_collect] is [engine.execute]
    (section 6). *)
Class Engine : Type := {
  normalize_filepath : string -> string;
  lf_columns : LazyFrame -> list string;
  lf_collect : LazyFrame -> Outcome DataFrame
}.

(** [is_int_sequence] of [polars._utils.various]: every element is an int. *)
Definition is_int (c : ColItem) : bool :=
  match c with ItemInt _ => true | ItemStr _ => false end.

Definition is_int_sequence (cols : list ColItem) : bool := forallb is_int cols.

(** [lf.select(columns)] with column names; a selector that still holds an
    integer is handed to the engine as a literal, which is not described
    here. *)
Fixpoint item_names (cols : list ColItem) : option (list string) :=
  match cols with
  | [] => Some []
  | ItemStr s :: rest => option_map (cons s) (item_names rest)
  | ItemInt _ :: _ => None
  end.

Definition lf_select (lf : LazyFrame) (cols : list ColItem) : Outcome LazyFrame :=
  match item_names cols with
  | Some names => Ok (Select lf names)
  | None => Unmodelled
  end.

(** The source handed to [_scan_hdf5_impl]: [str | list[str] | list[Path]]. *)
Inductive ImplSource : Type :=
| OneSource (s : string)
| ManySources (l : list string).

(** Lines 119-142. *)
Definition _scan_hdf5_impl (source : ImplSource)
    (subgroup format : option string) : LazyFrame :=
  let '(source, sources) :=
    match source with
    | ManySources l => (None, l)
    | OneSource s => (Some s, [])
    end in
  let pylf := new_from_hdf5 source sources subgroup format in
  wrap_ldf pylf.

Definition invalid_source : PyExc :=
  mkExc "AttributeError" "MyErr: path not str or path?".

(** Lines 89-116. *)
Definition scan_hdf5 `{Engine} (source : PyObj)
    (subgroup format : option string) : Outcome LazyFrame :=
  match source with
  | PStr p | PPath p =>
      let source := normalize_filepath p in
      Ok (_scan_hdf5_impl (OneSource source) subgroup format)
  | _ => Raise invalid_source
  end.

(** Line 84, one element of the comprehension: [lf.columns[i]]. *)
Definition item_position (lf_cols : list string) (c : ColItem) : Outcome ColItem :=
  match c with
  | ItemInt i => name <- py_getitem lf_cols i ;; Ok (ItemStr name)
  | ItemStr _ =>
      Raise (mkExc "TypeError" "list indices must be integers or slices, not str")
  end.

(** Lines 45-87. *)
Definition read_hdf5 `{Engine} (source : PyObj)
    (subgroup format : option string)
    (columns : option (list ColItem)) : Outcome DataFrame :=
  lf <- scan_hdf5 source subgroup format ;;
  lf <- match columns with
        | Some columns =>
            columns <- (if is_int_sequence columns
                        then comprehension (item_position (lf_columns lf)) columns
                        else Ok columns) ;;
            lf_select lf columns
        | None => Ok lf
        end ;;
  lf_collect lf.

(* ================================================================== *)
(** * src/polars/_utils/TC_expressions.py                              *)
(* ================================================================== *)

(** ** Characters *)

Definition code (c : ascii) : N := N_of_ascii c.

Definition in_range (lo hi : N) (c : ascii) : bool :=
  ((lo <=? code c) && (code c <=? hi))%N.

Definition is_digit (c : ascii) : bool := in_range 48 57 c.
Definition is_alpha (c : ascii) : bool := in_range 65 90 c || in_range 97 122 c.
Definition is_underscore (c : ascii) : bool := Ascii.eqb c "_".

(** [\w] on ASCII text.  Outside ASCII the pattern also accepts the
    letters and digits of other scripts; a template holding a byte above
    127 is not described, and [trans_func] is [Unmodelled] on it (the
    evaluator below refuses such bytes). *)
Definition is_word (c : ascii) : bool := is_alpha c || is_digit c || is_underscore c.

Fixpoint take_while (p : ascii -> bool) (s : string) : string :=
  match s with
  | String c rest => if p c then String c (take_while p rest) else EmptyString
  | EmptyString => EmptyString
  end.

Fixpoint drop_while (p : ascii -> bool) (s : string) : string :=
  match s with
  | String c rest => if p c then drop_while p rest else s
  | EmptyString => EmptyString
  end.

Fixpoint all_chars (p : ascii -> bool) (s : string) : bool :=
  match s with
  | String c rest => p c && all_chars p rest
  | EmptyString => true
  end.

Definition nonempty (s : string) : bool :=
  match s with EmptyString => false | String _ _ => true end.

(** ** Line 7: [re.sub(r"\{(\w+)\}", r"pl.col('\1')", value)] *)

(** The pattern tried just after an opening brace: a longest run of word
    characters, at least one, then a closing brace.  The run cannot be
    shortened to make the match succeed, since the character after a
    shorter run is a word character and not a brace. *)
Definition match_placeholder (after_brace : string) : option string :=
  let ident := take_while is_word after_brace in
  match drop_while is_word after_brace with
  | String c _ => if Ascii.eqb c "}" && nonempty ident then Some ident else None
  | EmptyString => None
  end.

(** One piece of the scanned template. *)
Inductive Piece : Type :=
| Text (c : ascii)
| Placeholder (ident : string).

(** Left-to-right scan for non-overlapping matches.  [skip] counts the
    characters of the current match that are still to be passed over. *)
Fixpoint scan_from (skip : nat) (s : string) : list Piece :=
  match s with
  | EmptyString => []
  | String c rest =>
      match skip with
      | S k => scan_from k rest
      | O =>
          if Ascii.eqb c "{" then
            match match_placeholder rest with
            | Some ident => Placeholder ident :: scan_from (S (String.length ident)) rest
            | None => Text c :: scan_from 0 rest
            end
          else Text c :: scan_from 0 rest
      end
  end.

Definition scan (s : string) : list Piece := scan_from 0 s.

Definition render (p : Piece) : string :=
  match p with
  | Text c => String c EmptyString
  | Placeholder ident => "pl.col('" ++ ident ++ "')"
  end.

Fixpoint render_all (ps : list Piece) : string :=
  match ps with
  | [] => EmptyString
  | p :: rest => render p ++ render_all rest
  end.

Definition re_sub (value : string) : string := render_all (scan value).

(** The identifiers captured by the pattern, in order. *)
Fixpoint placeholders_of (ps : list Piece) : list string :=
  match ps with
  | [] => []
  | Text _ :: rest => placeholders_of rest
  | Placeholder ident :: rest => ident :: placeholders_of rest
  end.

Definition placeholders (value : string) : list string := placeholders_of (scan value).

(** ** The engine's expressions *)

Inductive BinOp : Type := Add | Sub | Mul.

(** Modelled from the spec: the engine's expression tree, whose classes
    ([polars.Expr], [pl.col], [pl.lit]) are not part of these two files
    (section 4.5, steps 2 and 3: column references, arithmetic operators,
    named functions).  These are the nodes that [pl.col], [pl.lit], the
    arithmetic operators of [Expr] and [Expr.alias] build. *)
Inductive Expr : Type :=
| Col (name : string)
| Lit (n : Z)
| BinE (op : BinOp) (l r : Expr)
| Alias (e : Expr) (name : string).

(** ** Line 9: [eval(expr_str, {"pl": pl})]

    The host evaluator is described on a fragment of Python expressions:
    names, decimal integer and quoted string literals, attribute access,
    calls with one positional argument, parentheses and the binary
    operators [+], [-], [*].  Text outside the fragment, and any text that
    is not ASCII, is [Unmodelled]. *)

Inductive Token : Type :=
| TName (s : string)
| TInt (n : Z)
| TStr (s : string)
| TPlus | TMinus | TStar | TLParen | TRParen | TDot.

Definition keywords : list string :=
  [ "False"; "None"; "True"; "and"; "as"; "assert"; "async"; "await";
    "break"; "class"; "continue"; "def"; "del"; "elif"; "else"; "except";
    "finally"; "for"; "from"; "global"; "if"; "import"; "in"; "is";
    "lambda"; "nonlocal"; "not"; "or"; "pass"; "raise"; "return"; "try";
    "while"; "with"; "yield" ].

Definition mem (s : string) (l : list string) : bool := existsb (String.eqb s) l.

Definition digit_value (c : ascii) : Z := Z.of_N (code c) - 48.

Fixpoint decimal_value (acc : Z) (s : string) : Z :=
  match s with
  | EmptyString => acc
  | String c rest => decimal_value (10 * acc + digit_value c) rest
  end.

Definition is_space (c : ascii) : bool := Ascii.eqb c " " || (code c =? 9)%N.
Definition is_quote (c : ascii) : bool := Ascii.eqb c "'" || (code c =? 34)%N.

(** Characters a short string literal holds as they are: ASCII, no
    backslash, no line break, not the delimiter. *)
Definition plain_in (quote c : ascii) : bool :=
  negb (Ascii.eqb c quote) && (code c <? 128)%N && negb (code c =? 92)%N
  && negb (code c =? 10)%N && negb (code c =? 13)%N.

Definition punct (c : ascii) : option Token :=
  if Ascii.eqb c "+" then Some TPlus
  else if Ascii.eqb c "-" then Some TMinus
  else if Ascii.eqb c "*" then Some TStar
  else if Ascii.eqb c "(" then Some TLParen
  else if Ascii.eqb c ")" then Some TRParen
  else if Ascii.eqb c "." then Some TDot
  else None.

Definition cons_token (t : Token) (ts : option (list Token)) : option (list Token) :=
  option_map (cons t) ts.

Fixpoint lex_from (skip : nat) (s : string) : option (list Token) :=
  match s with
  | EmptyString => Some []
  | String c rest =>
      match skip with
      | S k => lex_from k rest
      | O =>
          if is_space c then lex_from 0 rest
          else if is_alpha c || is_underscore c then
            let tail := take_while is_word rest in
            let name := String c tail in
            if mem name keywords then None
            else cons_token (TName name) (lex_from (String.length tail) rest)
          else if is_digit c then
            let tail := take_while (fun x => is_word x || Ascii.eqb x ".") rest in
            if all_chars is_digit tail && (negb (Ascii.eqb c "0") || negb (nonempty tail))
            then cons_token (TInt (decimal_value 0 (String c tail)))
                            (lex_from (String.length tail) rest)
            else None
          else if is_quote c then
            let body := take_while (plain_in c) rest in
            match drop_while (plain_in c) rest with
            | String q _ =>
                if Ascii.eqb q c
                then cons_token (TStr body) (lex_from (S (String.length body)) rest)
                else None
            | EmptyString => None
            end
          else
            match punct c with
            | Some t => cons_token t (lex_from 0 rest)
            | None => None
            end
      end
  end.

Definition lex (s : string) : option (list Token) := lex_from 0 s.

Inductive PyAst : Type :=
| AName (s : string)
| AInt (n : Z)
| AStr (s : string)
| AAttr (obj : PyAst) (attr : string)
| ACall (f arg : PyAst)
| ABin (op : BinOp) (l r : PyAst).

Definition Parsed : Type := option (PyAst * list Token).

(** Recursive descent; every call spends one unit of [fuel]. *)
Fixpoint parse_sum (fuel : nat) (ts : list Token) : Parsed :=
  match fuel with
  | O => None
  | S n =>
      match parse_term n ts with
      | Some (l, rest) => sum_rest n l rest
      | None => None
      end
  end
with sum_rest (fuel : nat) (l : PyAst) (ts : list Token) : Parsed :=
  match fuel with
  | O => None
  | S n =>
      match ts with
      | TPlus :: rest =>
          match parse_term n rest with
          | Some (r, rest') => sum_rest n (ABin Add l r) rest'
          | None => None
          end
      | TMinus :: rest =>
          match parse_term n rest with
          | Some (r, rest') => sum_rest n (ABin Sub l r) rest'
          | None => None
          end
      | _ => Some (l, ts)
      end
  end
with parse_term (fuel : nat) (ts : list Token) : Parsed :=
  match fuel with
  | O => None
  | S n =>
      match parse_postfix n ts with
      | Some (l, rest) => term_rest n l rest
      | None => None
      end
  end
with term_rest (fuel : nat) (l : PyAst) (ts : list Token) : Parsed :=
  match fuel with
  | O => None
  | S n =>
      match ts with
      | TStar :: rest =>
          match parse_postfix n rest with
          | Some (r, rest') => term_rest n (ABin Mul l r) rest'
          | None => None
          end
      | _ => Some (l, ts)
      end
  end
with parse_postfix (fuel : nat) (ts : list Token) : Parsed :=
  match fuel with
  | O => None
  | S n =>
      match parse_atom n ts with
      | Some (a, rest) => postfix_rest n a rest
      | None => None
      end
  end
with postfix_rest (fuel : nat) (a : PyAst) (ts : list Token) : Parsed :=
  match fuel with
  | O => None
  | S n =>
      match ts with
      | TDot :: TName attr :: rest => postfix_rest n (AAttr a attr) rest
      | TLParen :: rest =>
          match parse_sum n rest with
          | Some (arg, TRParen :: rest') => postfix_rest n (ACall a arg) rest'
          | _ => None
          end
      | TDot :: _ => None
      | _ => Some (a, ts)
      end
  end
with parse_atom (fuel : nat) (ts : list Token) : Parsed :=
  match fuel with
  | O => None
  | S n =>
      match ts with
      | TName s :: rest => Some (AName s, rest)
      | TInt k :: rest => Some (AInt k, rest)
      | TStr s :: rest => Some (AStr s, rest)
      | TLParen :: rest =>
          match parse_sum n rest with
          | Some (e, TRParen :: rest') => Some (e, rest')
          | _ => None
          end
      | _ => None
      end
  end.

Definition parse (ts : list Token) : option PyAst :=
  match parse_sum (8 * length ts + 8) ts with
  | Some (e, []) => Some e
  | _ => None
  end.

Inductive PolarsFn : Type := Fcol | Flit.
Inductive Builtin : Type := Blen | Bimport.

Inductive PyValue : Type :=
| VInt (n : Z)
| VStr (s : string)
| VModule (name : string)
| VPolarsFn (f : PolarsFn)
| VBuiltin (b : Builtin)
| VExpr (e : Expr).

(** [type(v).__name__] for the values whose class is fixed by the language. *)
Definition type_name (v : PyValue) : option string :=
  match v with
  | VInt _ => Some "int"
  | VStr _ => Some "str"
  | VBuiltin _ => Some "builtin_function_or_method"
  | _ => None
  end.

(** Name resolution: the globals given to [eval], then the built-in
    namespace that [eval] adds to any globals lacking [__builtins__]. *)
Fixpoint lookup (name : string) (globals : list (string * PyValue)) : option PyValue :=
  match globals with
  | [] => None
  | (k, v) :: rest => if String.eqb k name then Some v else lookup name rest
  end.

Definition builtin_named (name : string) : option Builtin :=
  if String.eqb name "len" then Some Blen
  else if String.eqb name "__import__" then Some Bimport
  else None.

(** The names of the built-in namespace (Python 3.8 to 3.13), and the
    [__builtins__] entry that [eval] adds to the globals.  Only [len] and
    [__import__] are described further. *)
Definition builtin_names : list string :=
  [ "ArithmeticError"; "AssertionError"; "AttributeError"; "BaseException";
    "BaseExceptionGroup"; "BlockingIOError"; "BrokenPipeError"; "BufferError";
    "BytesWarning"; "ChildProcessError"; "ConnectionAbortedError";
    "ConnectionError"; "ConnectionRefusedError"; "ConnectionResetError";
    "DeprecationWarning"; "EOFError"; "Ellipsis"; "EncodingWarning";
    "EnvironmentError"; "Exception"; "ExceptionGroup"; "False";
    "FileExistsError"; "FileNotFoundError"; "FloatingPointError";
    "FutureWarning"; "GeneratorExit"; "IOError"; "ImportError";
    "ImportWarning"; "IndentationError"; "IndexError"; "InterruptedError";
    "IsADirectoryError"; "KeyError"; "KeyboardInterrupt"; "LookupError";
    "MemoryError"; "ModuleNotFoundError"; "NameError"; "None";
    "NotADirectoryError"; "NotImplemented"; "NotImplementedError"; "OSError";
    "OverflowError"; "PendingDeprecationWarning"; "PermissionError";
    "ProcessLookupError"; "PythonFinalizationError"; "RecursionError";
    "ReferenceError"; "ResourceWarning"; "RuntimeError"; "RuntimeWarning";
    "StopAsyncIteration"; "StopIteration"; "SyntaxError"; "SyntaxWarning";
    "SystemError"; "SystemExit"; "TabError"; "TimeoutError"; "True";
    "TypeError"; "UnboundLocalError"; "UnicodeDecodeError";
    "UnicodeEncodeError"; "UnicodeError"; "UnicodeTranslateError";
    "UnicodeWarning"; "UserWarning"; "ValueError"; "Warning"; "WindowsError";
    "ZeroDivisionError"; "_IncompleteInputError"; "__build_class__";
    "__builtins__"; "__debug__"; "__doc__"; "__import__"; "__loader__";
    "__name__"; "__package__"; "__spec__"; "abs"; "aiter"; "all"; "anext";
    "any"; "ascii"; "bin"; "bool"; "breakpoint"; "bytearray"; "bytes";
    "callable"; "chr"; "classmethod"; "compile"; "complex"; "copyright";
    "credits"; "delattr"; "dict"; "dir"; "divmod"; "enumerate"; "eval";
    "exec"; "exit"; "filter"; "float"; "format"; "frozenset"; "getattr";
    "globals"; "hasattr"; "hash"; "help"; "hex"; "id"; "input"; "int";
    "isinstance"; "issubclass"; "iter"; "len"; "license"; "list"; "locals";
    "map"; "max"; "memoryview"; "min"; "next"; "object"; "oct"; "open";
    "ord"; "pow"; "print"; "property"; "quit"; "range"; "repr"; "reversed";
    "round"; "set"; "setattr"; "slice"; "sorted"; "staticmethod"; "str";
    "sum"; "super"; "tuple"; "type"; "vars"; "zip" ].

Definition name_error (name : string) : PyExc :=
  mkExc "NameError" ("name '" ++ name ++ "' is not defined").

Definition eval_name (globals : list (string * PyValue)) (name : string) : Outcome PyValue :=
  match lookup name globals with
  | Some v => Ok v
  | None =>
      match builtin_named name with
      | Some b => Ok (VBuiltin b)
      | None => if mem name builtin_names then Unmodelled else Raise (name_error name)
      end
  end.

Definition eval_attr (obj : PyValue) (attr : string) : Outcome PyValue :=
  match obj with
  | VModule m =>
      if String.eqb m "polars" then
        if String.eqb attr "col" then Ok (VPolarsFn Fcol)
        else if String.eqb attr "lit" then Ok (VPolarsFn Flit)
        else Unmodelled
      else Unmodelled
  | _ => Unmodelled
  end.

Definition not_callable (ty : string) : PyExc :=
  mkExc "TypeError" ("'" ++ ty ++ "' object is not callable").

Definition eval_call (f arg : PyValue) : Outcome PyValue :=
  match f, arg with
  | VPolarsFn Fcol, VStr s =>
      if all_chars is_word s && nonempty s then Ok (VExpr (Col s)) else Unmodelled
  | VPolarsFn Flit, VInt n => Ok (VExpr (Lit n))
  | VBuiltin Blen, VStr s => Ok (VInt (Z.of_nat (String.length s)))
  | VBuiltin Bimport, VStr m => if mem m ["os"; "sys"] then Ok (VModule m) else Unmodelled
  | VInt _, _ => Raise (not_callable "int")
  | VStr _, _ => Raise (not_callable "str")
  | _, _ => Unmodelled
  end.

Definition op_symbol (op : BinOp) : string :=
  match op with Add => "+" | Sub => "-" | Mul => "*" end.

Definition unsupported_operand (op : BinOp) (l r : string) : PyExc :=
  mkExc "TypeError"
    ("unsupported operand type(s) for " ++ op_symbol op ++ ": '" ++ l ++ "' and '" ++ r ++ "'").

Definition int_op (op : BinOp) (a b : Z) : Z :=
  match op with Add => a + b | Sub => a - b | Mul => a * b end.

Definition eval_binop (op : BinOp) (l r : PyValue) : Outcome PyValue :=
  match l, r with
  | VInt a, VInt b => Ok (VInt (int_op op a b))
  | VExpr a, VExpr b => Ok (VExpr (BinE op a b))
  | VExpr a, VInt b => Ok (VExpr (BinE op a (Lit b)))
  | VInt a, VExpr b => Ok (VExpr (BinE op (Lit a) b))
  | VStr a, VStr b =>
      match op with
      | Add => Ok (VStr (a ++ b))
      | Sub => Raise (unsupported_operand Sub "str" "str")
      | Mul => Unmodelled
      end
  | VInt _, VStr _ =>
      match op with
      | Add | Sub => Raise (unsupported_operand op "int" "str")
      | Mul => Unmodelled
      end
  | VStr _, VInt _ =>
      match op with
      | Sub => Raise (unsupported_operand Sub "str" "int")
      | _ => Unmodelled
      end
  | _, _ => Unmodelled
  end.

Fixpoint eval_ast (globals : list (string * PyValue)) (e : PyAst) : Outcome PyValue :=
  match e with
  | AName s => eval_name globals s
  | AInt n => Ok (VInt n)
  | AStr s => Ok (VStr s)
  | AAttr obj attr => o <- eval_ast globals obj ;; eval_attr o attr
  | ACall f arg =>
      fv <- eval_ast globals f ;;
      av <- eval_ast globals arg ;;
      eval_call fv av
  | ABin op l r =>
      lv <- eval_ast globals l ;;
      rv <- eval_ast globals r ;;
      eval_binop op lv rv
  end.

Definition py_eval (source : string) (globals : list (string * PyValue)) : Outcome PyValue :=
  match lex source with
  | Some ts =>
      match parse ts with
      | Some e => eval_ast globals e
      | None => Unmodelled
      end
  | None => Unmodelled
  end.

(** ** Line 11: [expr.alias(name)] *)

Definition no_attribute (owner attr : string) : PyExc :=
  mkExc "AttributeError" (owner ++ " has no attribute '" ++ attr ++ "'").

Definition py_alias (expr : PyValue) (name : string) : Outcome Expr :=
  match expr with
  | VExpr e => Ok (Alias e name)
  | VModule m => Raise (no_attribute ("module '" ++ m ++ "'") "alias")
  | VPolarsFn _ => Unmodelled
  | v =>
      match type_name v with
      | Some ty => Raise (no_attribute ("'" ++ ty ++ "' object") "alias")
      | None => Unmodelled
      end
  end.

(** ** Line 11: [df.with_columns(...)] *)

(** Columns an expression reads, from left to right. *)
Fixpoint expr_columns (e : Expr) : list string :=
  match e with
  | Col c => [c]
  | Lit _ => []
  | BinE _ l r => (expr_columns l ++ expr_columns r)%list
  | Alias e _ => expr_columns e
  end.

(** Name of the column an expression produces: the alias if there is one,
    else the leftmost leaf. *)
Fixpoint output_name (e : Expr) : string :=
  match e with
  | Col c => c
  | Lit _ => "literal"
  | BinE _ l _ => output_name l
  | Alias _ name => name
  end.

Definition unknown_column (c : string) (schema : list string) : PyExc :=
  mkExc "UnknownColumnReference"
    ("column '" ++ c ++ "' not in schema [" ++ String.concat ", " schema ++ "]").

Definition first_missing (schema : list string) (e : Expr) : option string :=
  find (fun c => negb (mem c schema)) (expr_columns e).

(** Value of an expression over a table: one value for all rows, or one
    value per row. *)
Inductive Evaluated : Type :=
| Scalar (n : Z)
| PerRow (s : Series).

Fixpoint get_column (c : string) (df : DataFrame) : Series :=
  match df with
  | [] => []
  | (k, s) :: rest => if String.eqb k c then s else get_column c rest
  end.

Fixpoint zip_with (f : Z -> Z -> Z) (a b : Series) : Series :=
  match a, b with
  | x :: a', y :: b' => f x y :: zip_with f a' b'
  | _, _ => []
  end.

(** Arithmetic on 64-bit cells wraps around. *)
Definition wrap64 (n : Z) : Z := (n + 2 ^ 63) mod 2 ^ 64 - 2 ^ 63.

Definition col_op (op : BinOp) (a b : Z) : Z := wrap64 (int_op op a b).

Definition fits_int64 (n : Z) : bool := (- 2 ^ 63 <=? n) && (n <? 2 ^ 63).
Definition fits_int32 (n : Z) : bool := (- 2 ^ 31 <=? n) && (n <? 2 ^ 31).

(** An operator between two evaluated operands.  A literal meeting a
    column is taken at the column's width.  Arithmetic between literals
    alone is described while operands and result fit in 32 bits, where the
    width given to a literal does not matter; beyond that it is not
    described ([None]). *)
Definition apply_op (op : BinOp) (a b : Evaluated) : option Evaluated :=
  match a, b with
  | Scalar x, Scalar y =>
      if fits_int32 x && fits_int32 y && fits_int32 (int_op op x y)
      then Some (Scalar (int_op op x y)) else None
  | Scalar x, PerRow s => Some (PerRow (map (col_op op x) s))
  | PerRow s, Scalar y => Some (PerRow (map (fun x => col_op op x y) s))
  | PerRow s, PerRow t => Some (PerRow (zip_with (col_op op) s t))
  end.

Fixpoint eval_expr (df : DataFrame) (e : Expr) : option Evaluated :=
  match e with
  | Col c => Some (PerRow (get_column c df))
  | Lit n => if fits_int64 n then Some (Scalar n) else None
  | BinE op l r =>
      match eval_expr df l, eval_expr df r with
      | Some a, Some b => apply_op op a b
      | _, _ => None
      end
  | Alias e _ => eval_expr df e
  end.

(** Rows a literal is spread over: the height of the table, and one row
    when the table has no column at all. *)
Definition literal_rows (df : DataFrame) : nat :=
  match df with
  | [] => 1%nat
  | _ :: _ => height df
  end.

Definition broadcast (df : DataFrame) (v : Evaluated) : Series :=
  match v with
  | Scalar n => repeat n (literal_rows df)
  | PerRow s => s
  end.

(** The value of an expression that reads no column, when described. *)
Definition constant_value (e : Expr) : option Z :=
  match eval_expr [] e with
  | Some (Scalar k) => Some k
  | _ => None
  end.

(** Replace the column called [name] where it stands, or append it. *)
Definition upsert (df : DataFrame) (name : string) (s : Series) : DataFrame :=
  if mem name (column_names df)
  then map (fun col => if String.eqb (fst col) name then (name, s) else col) df
  else (df ++ [(name, s)])%list.

(** Modelled from the spec: [DataFrame.with_columns] with one expression,
    which belongs to the engine and is not part of these two files
    (section 4.5, steps 4 and 5).  The expression is first bound to the
    schema, an unresolved column failing with [UnknownColumnReference]
    that names the column and the schema; it is then evaluated over
    integer columns, and the result replaces the same-named column or is
    appended last. *)
Definition with_columns (df : DataFrame) (e : Expr) : Outcome DataFrame :=
  match first_missing (column_names df) e with
  | Some c => Raise (unknown_column c (column_names df))
  | None =>
      match eval_expr df e with
      | Some v => Ok (upsert df (output_name e) (broadcast df v))
      | None => Unmodelled
      end
  end.

(** ** [trans_func] (lines 5-11) *)

Definition pl : PyValue := VModule "polars".

Definition trans_func (df : DataFrame) (name value : string) : Outcome DataFrame :=
  let expr_str := re_sub value in
  expr <- py_eval expr_str [("pl", pl)] ;;
  aliased <- py_alias expr name ;;
  with_columns df aliased.

(* ================================================================== *)
(** * The specification's reading of the eager read                    *)
(* ================================================================== *)

Definition decimal (n : Z) : string := NilZero.string_of_int (Z.to_int n).

(** [msg] shows the number [n] in decimal somewhere. *)
Definition mentions (n : Z) (msg : string) : bool :=
  match String.index 0 (decimal n) msg with
  | Some _ => true
  | None => false
  end.

Definition column_index_out_of_range (i n : Z) : PyExc :=
  mkExc "ColumnIndexOutOfRange"
    ("position " ++ decimal i ++ " is out of range for a schema of length " ++ decimal n).

(** Section 4.3, step 1, as the specification words it: zero-based
    positions, a position outside the schema is rejected with the index
    and the schema length. *)
Definition spec_resolve (schema : list string) (c : ColItem) : Outcome ColItem :=
  match c with
  | ItemInt i =>
      let n := Z.of_nat (length schema) in
      if (0 <=? i) && (i <? n)
      then Ok (ItemStr (nth (Z.to_nat i) schema ""))
      else Raise (column_index_out_of_range i n)
  | ItemStr s => Ok (ItemStr s)
  end.

(** Section 4.3 as the specification words it: [selectColumns]. *)
Definition spec_selectColumns `{Engine} (frame : LazyFrame)
    (selector : option (list ColItem)) : Outcome LazyFrame :=
  match selector with
  | None => Ok frame
  | Some cols =>
      names <- comprehension (spec_resolve (lf_columns frame)) cols ;;
      lf_select frame names
  end.

(** Section 6 as the specification words it: [readEager] is build, then
    select, then materialize. *)
Definition spec_readEager `{Engine} (source : PyObj)
    (subgroup format : option string)
    (columns : option (list ColItem)) : Outcome DataFrame :=
  frame <- scan_hdf5 source subgroup format ;;
  frame <- spec_selectColumns frame columns ;;
  lf_collect frame.

Definition is_str (c : ColItem) : bool := negb (is_int c).

Definition position_in (n : Z) (c : ColItem) : bool :=
  match c with
  | ItemInt i => (0 <=? i) && (i <? n)
  | ItemStr _ => false
  end.

(** A selector the specification calls valid against a schema: absent,
    all names, or all zero-based positions inside the schema. *)
Definition valid_selector (schema : list string)
    (columns : option (list ColItem)) : bool :=
  match columns with
  | None => true
  | Some cols =>
      forallb (position_in (Z.of_nat (length schema))) cols || forallb is_str cols
  end.

(** The source shapes the specification accepts (section 4.1): a single
    path-like value, or an ordered sequence of path-like values. *)
Definition path_like (v : PyObj) : bool :=
  match v with PStr _ | PPath _ => true | _ => false end.

Definition path_or_path_list (v : PyObj) : bool :=
  path_like v || match v with PList items => forallb path_like items | _ => false end.

(** Exactly one of the two source arguments of the engine call is set. *)
Definition exactly_one_source (pylf : PyLazyFrame) : Prop :=
  (arg_source pylf <> None /\ arg_sources pylf = [])
  \/ (arg_source pylf = None /\ arg_sources pylf <> []).

(** The column a Python index resolves to, counting from the end when the
    index is negative. *)
Definition nth_from_end (schema : list string) (k : nat) : string :=
  nth (length schema - k) schema "".

(** ** A small engine and table for concrete runs *)

Definition demo_table : DataFrame := [("x", [1; 2]); ("y", [3; 4]); ("z", [5; 6])].

Definition demo_columns (lf : LazyFrame) : list string :=
  match lf with
  | wrap_ldf _ => column_names demo_table
  | Select _ names => names
  end.

Definition demo_collect (lf : LazyFrame) : Outcome DataFrame :=
  Ok (map (fun c => (c, get_column c demo_table)) (demo_columns lf)).

Definition demo_engine : Engine :=
  {| normalize_filepath := fun p => p;
     lf_columns := demo_columns;
     lf_collect := demo_collect |}.

Definition ab_table : DataFrame := [("a", [1; 2]); ("b", [3; 4])].

(** ** Character tests used to state properties of the rewriting *)

Definition not_open (c : ascii) : bool := negb (Ascii.eqb c "{").
Definition not_close (c : ascii) : bool := negb (Ascii.eqb c "}").

(** The first character after the leading run of word characters is a
    closing brace. *)
Definition closes (s : string) : bool :=
  match drop_while is_word s with
  | String c _ => Ascii.eqb c "}"
  | EmptyString => false
  end.

(** The column a position selects, Python style: positions are taken
    modulo the schema length. *)
Definition column_at (schema : list string) (i : Z) : string :=
  nth (Z.to_nat (i mod Z.of_nat (length schema))) schema "".

(* ================================================================== *)
(** * Properties of the HDF5 front-end                                 *)
(* ================================================================== *)

Section Hdf5.

Context {E : Engine}.

Lemma bind_ok_inv {A B : Type} (m : Outcome A) (k : A -> Outcome B) (b : B) :
  bind m k = Ok b -> exists a, m = Ok a /\ k a = Ok b.
Proof.
  destruct m as [a | e |]; simpl; intro H; try discriminate.
  exists a; split; [reflexivity | exact H].
Qed.

Lemma bind_raise_inv {A B : Type} (m : Outcome A) (k : A -> Outcome B) (e : PyExc) :
  bind m k = Raise e -> m = Raise e \/ exists a, m = Ok a /\ k a = Raise e.
Proof.
  destruct m as [a | e' |]; simpl; intro H; try discriminate.
  - right. exists a. split; [reflexivity | exact H].
  - left. injection H as ->. reflexivity.
Qed.

(** An accepted source is a single path, normalised and passed on alone. *)
Lemma scan_hdf5_ok_inv (source : PyObj) (subgroup format : option string)
    (lf : LazyFrame) :
  scan_hdf5 source subgroup format = Ok lf ->
  exists p, (source = PStr p \/ source = PPath p)
    /\ lf = wrap_ldf (new_from_hdf5 (Some (normalize_filepath p)) [] subgroup format).
Proof.
  destruct source; simpl; intro H; try discriminate;
    injection H as <-; eexists; (split; [ | reflexivity]); auto.
Qed.

(** The two source arguments are never both set, whatever
    [_scan_hdf5_impl] is given. *)
Lemma _scan_hdf5_impl_exclusive (source : ImplSource) (subgroup format : option string) :
  exists pylf, _scan_hdf5_impl source subgroup format = wrap_ldf pylf
    /\ (arg_source pylf = None \/ arg_sources pylf = []).
Proof.
  destruct source; simpl; eexists; split; try reflexivity; simpl; auto.
Qed.

(** Exactly one of them is set unless the list is empty. *)
Lemma _scan_hdf5_impl_exactly_one (source : ImplSource) (subgroup format : option string) :
  source <> ManySources [] ->
  exists pylf, _scan_hdf5_impl source subgroup format = wrap_ldf pylf
    /\ exactly_one_source pylf.
Proof.
  intro Hne. destruct source as [s | l]; simpl; eexists; split; try reflexivity.
  - left. simpl. split; [discriminate | reflexivity].
  - right. simpl. split; [reflexivity | ]. intro Hl. apply Hne. rewrite Hl. reflexivity.
Qed.

Lemma _scan_hdf5_impl_one (s : string) (subgroup format : option string) :
  _scan_hdf5_impl (OneSource s) subgroup format
  = wrap_ldf (new_from_hdf5 (Some s) [] subgroup format).
Proof. reflexivity. Qed.

Lemma _scan_hdf5_impl_many (l : list string) (subgroup format : option string) :
  _scan_hdf5_impl (ManySources l) subgroup format
  = wrap_ldf (new_from_hdf5 None l subgroup format).
Proof. reflexivity. Qed.

(** *** Python indexing *)

Lemma py_getitem_front {A : Type} (l : list A) (i : Z) (d : A) :
  0 <= i < Z.of_nat (length l) ->
  py_getitem l i = Ok (nth (Z.to_nat i) l d).
Proof.
  intros Hi. unfold py_getitem.
  replace (i <? 0) with false by (symmetry; apply Z.ltb_ge; lia).
  replace (0 <=? i) with true by (symmetry; apply Z.leb_le; lia).
  replace (i <? Z.of_nat (length l)) with true by (symmetry; apply Z.ltb_lt; lia).
  simpl.
  destruct (nth_error l (Z.to_nat i)) as [x |] eqn:Hx.
  - f_equal. symmetry. apply nth_error_nth. exact Hx.
  - apply nth_error_None in Hx. lia.
Qed.

Lemma py_getitem_back {A : Type} (l : list A) (k : Z) (d : A) :
  1 <= k <= Z.of_nat (length l) ->
  py_getitem l (- k) = Ok (nth (length l - Z.to_nat k) l d).
Proof.
  intros Hk. unfold py_getitem.
  replace (- k <? 0) with true by (symmetry; apply Z.ltb_lt; lia).
  replace (0 <=? - k + Z.of_nat (length l)) with true by (symmetry; apply Z.leb_le; lia).
  replace (- k + Z.of_nat (length l) <? Z.of_nat (length l)) with true
    by (symmetry; apply Z.ltb_lt; lia).
  simpl.
  replace (Z.to_nat (- k + Z.of_nat (length l))) with (length l - Z.to_nat k)%nat by lia.
  destruct (nth_error l (length l - Z.to_nat k)) as [x |] eqn:Hx.
  - f_equal. symmetry. apply nth_error_nth. exact Hx.
  - apply nth_error_None in Hx. lia.
Qed.

Lemma py_getitem_beyond {A : Type} (l : list A) (i : Z) :
  Z.of_nat (length l) <= i -> py_getitem l i = Raise (index_failure i).
Proof.
  intros Hi. unfold py_getitem, index_failure.
  replace (i <? 0) with false by (symmetry; apply Z.ltb_ge; lia).
  replace (i <? Z.of_nat (length l)) with false by (symmetry; apply Z.ltb_ge; lia).
  rewrite andb_false_r. destruct (fits_index i); reflexivity.
Qed.

Lemma py_getitem_below {A : Type} (l : list A) (i : Z) :
  i < - Z.of_nat (length l) -> py_getitem l i = Raise (index_failure i).
Proof.
  intros Hi. unfold py_getitem, index_failure.
  replace (i <? 0) with true by (symmetry; apply Z.ltb_lt; lia).
  replace (0 <=? i + Z.of_nat (length l)) with false by (symmetry; apply Z.leb_gt; lia).
  simpl. destruct (fits_index i); reflexivity.
Qed.

(** Indexing either yields an element or raises its [IndexError]. *)
Lemma py_getitem_cases {A : Type} (l : list A) (i : Z) :
  (exists x, py_getitem l i = Ok x)
  \/ py_getitem l i = Raise index_error
  \/ py_getitem l i = Raise (index_failure i).
Proof.
  unfold py_getitem, index_failure.
  destruct ((0 <=? (if i <? 0 then i + Z.of_nat (length l) else i))
            && ((if i <? 0 then i + Z.of_nat (length l) else i) <? Z.of_nat (length l))).
  - destruct (nth_error l _); [left; eauto | right; left; reflexivity].
  - right; right. destruct (fits_index i); reflexivity.
Qed.

(** Both exceptions are [IndexError]s with a fixed text. *)
Lemma index_failure_fixed (i : Z) :
  exc_class (index_failure i) = "IndexError"
  /\ (exc_msg (index_failure i) = "list index out of range"
      \/ exc_msg (index_failure i) = "cannot fit 'int' into an index-sized integer").
Proof. unfold index_failure. destruct (fits_index i); simpl; auto. Qed.

(** *** The comprehension of line 84 *)

Lemma is_int_sequence_map (cols : list ColItem) :
  is_int_sequence cols = true -> exists ints, cols = map ItemInt ints.
Proof.
  induction cols as [| c cols IH]; simpl; intro H.
  - exists []. reflexivity.
  - apply andb_prop in H as [Hc Hr]. destruct (IH Hr) as [ints ->].
    destruct c as [i | s]; [ | discriminate].
    exists (i :: ints). reflexivity.
Qed.

Lemma is_int_sequence_ints (ints : list Z) : is_int_sequence (map ItemInt ints) = true.
Proof. induction ints; simpl; auto. Qed.

(** The comprehension stops at the first position outside the schema and
    lets its [IndexError] escape. *)
Lemma comprehension_positions_fail (schema : list string) (ints : list Z) (i : Z) :
  In i ints ->
  i < - Z.of_nat (length schema) \/ Z.of_nat (length schema) <= i ->
  exists j, In j ints
    /\ comprehension (item_position schema) (map ItemInt ints) = Raise (index_failure j).
Proof.
  induction ints as [| k ints IH]; simpl; intros Hin Hi; [contradiction | ].
  destruct (py_getitem_cases schema k) as [[x Hx] | [Hx | Hx]].
  - rewrite Hx. simpl. destruct Hin as [-> | Hin].
    + exfalso. destruct Hi as [Hi | Hi];
        [rewrite (py_getitem_below schema i Hi) in Hx
        | rewrite (py_getitem_beyond schema i Hi) in Hx]; discriminate.
    + destruct (IH Hin Hi) as [j [Hj Hc]]. exists j. rewrite Hc. auto.
  - (* the element lookup itself failed inside the range: not reachable,
       and the exception is the one of a fitting index *)
    unfold py_getitem in Hx.
    destruct ((0 <=? (if k <? 0 then k + Z.of_nat (length schema) else k))
              && ((if k <? 0 then k + Z.of_nat (length schema) else k)
                  <? Z.of_nat (length schema))) eqn:Hr.
    + apply andb_prop in Hr as [H0 Hn].
      apply Z.leb_le in H0. apply Z.ltb_lt in Hn.
      destruct (nth_error schema _) eqn:Hnth; [discriminate | ].
      apply nth_error_None in Hnth. exfalso.
      destruct (k <? 0); lia.
    + exists k. split; [auto | ].
      unfold py_getitem. rewrite Hr. unfold index_failure.
      destruct (fits_index k); reflexivity.
  - exists k. rewrite Hx. auto.
Qed.

Lemma item_names_strs (names : list string) : item_names (map ItemStr names) = Some names.
Proof. induction names as [| n names IH]; simpl; [ | rewrite IH]; reflexivity. Qed.

Lemma lf_select_names (lf : LazyFrame) (names : list string) :
  lf_select lf (map ItemStr names) = Ok (Select lf names).
Proof. unfold lf_select. rewrite item_names_strs. reflexivity. Qed.

End Hdf5.

(** *** Agreement of the two readings on valid selectors *)

Lemma positions_are_ints (n : Z) (cols : list ColItem) :
  forallb (position_in n) cols = true -> is_int_sequence cols = true.
Proof.
  induction cols as [| c cols IH]; simpl; intro H; [reflexivity | ].
  apply andb_prop in H as [Hc Hr]. rewrite (IH Hr).
  destruct c; [reflexivity | discriminate].
Qed.

Lemma comprehension_in_range (schema : list string) (cols : list ColItem) :
  forallb (position_in (Z.of_nat (length schema))) cols = true ->
  comprehension (item_position schema) cols = comprehension (spec_resolve schema) cols.
Proof.
  induction cols as [| c cols IH]; simpl; intro H; [reflexivity | ].
  apply andb_prop in H as [Hc Hr]. rewrite (IH Hr).
  destruct c as [i | s]; simpl in *; [ | discriminate].
  rewrite Hc. apply andb_prop in Hc as [H0 Hn].
  apply Z.leb_le in H0. apply Z.ltb_lt in Hn.
  rewrite (py_getitem_front schema i "") by lia. reflexivity.
Qed.

Lemma comprehension_names (schema : list string) (cols : list ColItem) :
  forallb is_str cols = true -> comprehension (spec_resolve schema) cols = Ok cols.
Proof.
  induction cols as [| c cols IH]; simpl; intro H; [reflexivity | ].
  apply andb_prop in H as [Hc Hr]. rewrite (IH Hr).
  destruct c; [discriminate | reflexivity].
Qed.

Lemma ints_and_names_empty (cols : list ColItem) :
  is_int_sequence cols = true -> forallb is_str cols = true -> cols = [].
Proof.
  destruct cols as [| c cols]; simpl; [reflexivity | ].
  destruct c; simpl; intros; discriminate.
Qed.

(** The column name a Python position stands for. *)
Lemma comprehension_python_positions (schema : list string) (ints : list Z) :
  (forall i, In i ints -> - Z.of_nat (length schema) <= i < Z.of_nat (length schema)) ->
  exists names,
    comprehension (item_position schema) (map ItemInt ints) = Ok (map ItemStr names)
    /\ length names = length ints
    /\ forall j k, nth_error ints j = Some (- k) -> 1 <= k ->
         nth_error names j = Some (nth_from_end schema (Z.to_nat k)).
Proof.
  induction ints as [| i ints IH]; intro Hall.
  - exists []. simpl. repeat split; auto.
    intros j k Hj. destruct j; discriminate.
  - destruct IH as [names [Hc [Hl Hn]]].
    { intros j Hj. apply Hall. right. exact Hj. }
    assert (Hi := Hall i (or_introl eq_refl)).
    destruct (Z_lt_ge_dec i 0) as [Hneg | Hpos].
    + exists (nth_from_end schema (Z.to_nat (- i)) :: names). simpl.
      replace i with (- - i) at 1 by lia.
      rewrite (py_getitem_back schema (- i) "") by lia.
      simpl. rewrite Hc. simpl. repeat split; [congruence | ].
      intros j k Hj Hk. destruct j as [| j]; simpl in *.
      * injection Hj as ->. rewrite Z.opp_involutive. reflexivity.
      * apply Hn; assumption.
    + exists (nth (Z.to_nat i) schema "" :: names). simpl.
      rewrite (py_getitem_front schema i "") by lia.
      simpl. rewrite Hc. simpl. repeat split; [congruence | ].
      intros j k Hj Hk. destruct j as [| j]; simpl in *.
      * injection Hj as ->. lia.
      * apply Hn; assumption.
Qed.

(** ** Claims about [functions.py] *)

(** C2 (counterexample).  A list of two paths is an ordered sequence of
    path-like values, and [scan_hdf5] does not construct a scan for it: it
    raises the error of line 109. *)
Lemma scan_hdf5_rejects_path_list :
  path_or_path_list (PList [PStr "a.h5"; PStr "b.h5"]) = true
  /\ ~ (exists lf, @scan_hdf5 demo_engine (PList [PStr "a.h5"; PStr "b.h5"]) None None
                   = Ok lf).
Proof.
  split; [reflexivity | ].
  intros [lf H]. simpl in H. discriminate.
Qed.

(** C2 (amended).  [scan_hdf5] constructs the scan exactly for a single
    path-like value, a [str] or a [Path], whose normalised form is passed
    on as the only source; every other value, a sequence of paths
    included, fails at once with the error of line 109, whatever the
    engine and the normaliser are. *)
Theorem scan_hdf5_single_path_only `{E : Engine} (source : PyObj)
    (subgroup format : option string) :
  if path_like source
  then exists p, (source = PStr p \/ source = PPath p)
         /\ scan_hdf5 source subgroup format
            = Ok (wrap_ldf (new_from_hdf5 (Some (normalize_filepath p)) [] subgroup format))
  else scan_hdf5 source subgroup format = Raise invalid_source.
Proof.
  destruct source; simpl; try reflexivity; eexists; split; eauto.
Qed.

(** C3 (counterexample).  Position 5 against the three-column schema of
    the demo engine: the call fails, but the exception raised does not
    show the index 5 and the length 3. *)
Lemma read_hdf5_index_error_names_nothing :
  ~ (exists e,
       @read_hdf5 demo_engine (PStr "data.h5") None None (Some [ItemInt 5]) = Raise e
       /\ mentions 5 (exc_msg e) = true /\ mentions 3 (exc_msg e) = true).
Proof.
  intros [e [H [H5 _]]]. vm_compute in H. injection H as <-.
  vm_compute in H5. discriminate.
Qed.

(** C3 (amended).  When the selector is a sequence of integers and one of
    them is at or beyond the schema length, [read_hdf5] raises Python's
    [IndexError] with one of the interpreter's two fixed messages, "list
    index out of range" or, for an index that does not fit in a machine
    index, "cannot fit 'int' into an index-sized integer"; the first is
    the one raised when every position fits.  Neither message carries the
    index or the schema length, and no frame or table is returned. *)
Theorem read_hdf5_position_beyond_schema `{E : Engine} (source : PyObj)
    (subgroup format : option string) (lf : LazyFrame)
    (columns : list ColItem) (i : Z) :
  scan_hdf5 source subgroup format = Ok lf ->
  is_int_sequence columns = true ->
  In (ItemInt i) columns ->
  Z.of_nat (length (lf_columns lf)) <= i ->
  exists e,
    read_hdf5 source subgroup format (Some columns) = Raise e
    /\ exc_class e = "IndexError"
    /\ (exc_msg e = "list index out of range"
        \/ exc_msg e = "cannot fit 'int' into an index-sized integer")
    /\ ((forall j, In (ItemInt j) columns -> fits_index j = true) -> e = index_error).
Proof.
  intros Hscan Hints Hin Hi. unfold read_hdf5. rewrite Hscan. simpl.
  rewrite Hints. destruct (is_int_sequence_map columns Hints) as [ints ->].
  apply in_map_iff in Hin as [k [Hk Hin]]. injection Hk as ->.
  destruct (comprehension_positions_fail (lf_columns lf) ints i Hin (or_intror Hi))
    as [j [Hj Hc]].
  exists (index_failure j). rewrite Hc. simpl.
  destruct (index_failure_fixed j) as [Hclass Hmsg].
  repeat split; auto.
  intro Hfit. unfold index_failure.
  rewrite (Hfit j (in_map ItemInt ints j Hj)). reflexivity.
Qed.

Lemma read_hdf5_position_beyond_schema_witness :
  exists e,
    @read_hdf5 demo_engine (PStr "data.h5") None None (Some [ItemInt 0; ItemInt 3])
    = Raise e
    /\ exc_class e = "IndexError"
    /\ (exc_msg e = "list index out of range"
        \/ exc_msg e = "cannot fit 'int' into an index-sized integer")
    /\ ((forall j, In (ItemInt j) [ItemInt 0; ItemInt 3] -> fits_index j = true)
        -> e = index_error).
Proof.
  apply (@read_hdf5_position_beyond_schema demo_engine (PStr "data.h5") None None
           (wrap_ldf (new_from_hdf5 (Some "data.h5") [] None None))
           [ItemInt 0; ItemInt 3] 3).
  - reflexivity.
  - reflexivity.
  - simpl. auto.
  - simpl. lia.
Defined.

(** C5.  On a valid selector (absent, all names, or all zero-based
    positions inside the schema of the frame built from the source),
    [read_hdf5] returns what building the scan, selecting the columns and
    materializing return when run one after the other. *)
Theorem read_hdf5_is_build_select_materialize `{E : Engine} (source : PyObj)
    (subgroup format : option string) (columns : option (list ColItem)) :
  (forall lf, scan_hdf5 source subgroup format = Ok lf ->
              valid_selector (lf_columns lf) columns = true) ->
  read_hdf5 source subgroup format columns
  = spec_readEager source subgroup format columns.
Proof.
  intro Hvalid. unfold read_hdf5, spec_readEager.
  destruct (scan_hdf5 source subgroup format) as [lf | e |] eqn:Hscan; try reflexivity.
  simpl. specialize (Hvalid lf eq_refl).
  destruct columns as [cols |]; [ | reflexivity].
  simpl in *. f_equal.
  apply orb_prop in Hvalid as [Hpos | Hstr].
  - rewrite (positions_are_ints _ _ Hpos).
    rewrite (comprehension_in_range _ _ Hpos). reflexivity.
  - rewrite (comprehension_names _ _ Hstr).
    destruct (is_int_sequence cols) eqn:Hints; [ | reflexivity].
    rewrite (ints_and_names_empty cols Hints Hstr). reflexivity.
Qed.

Lemma read_hdf5_is_build_select_materialize_witness :
  @read_hdf5 demo_engine (PStr "data.h5") (Some "grp") None (Some [ItemInt 2; ItemInt 0])
  = @spec_readEager demo_engine (PStr "data.h5") (Some "grp") None
      (Some [ItemInt 2; ItemInt 0]).
Proof.
  apply (@read_hdf5_is_build_select_materialize demo_engine).
  intros lf H. simpl in H. injection H as <-. reflexivity.
Defined.

(** C9.  Whenever [scan_hdf5] accepts a source, the call to
    [PyLazyFrame.new_from_hdf5] made for it has exactly one of its two
    source arguments set: the other is [None] or the empty list. *)
Theorem scan_hdf5_passes_exactly_one_source `{E : Engine} (source : PyObj)
    (subgroup format : option string) (lf : LazyFrame) :
  scan_hdf5 source subgroup format = Ok lf ->
  exists pylf, lf = wrap_ldf pylf /\ exactly_one_source pylf.
Proof.
  intro H. destruct (scan_hdf5_ok_inv source subgroup format lf H) as [p [_ ->]].
  eexists. split; [reflexivity | ].
  left. simpl. split; [discriminate | reflexivity].
Qed.

Lemma scan_hdf5_passes_exactly_one_source_witness :
  exists pylf,
    wrap_ldf (new_from_hdf5 (Some "data.h5") [] None (Some "vaex")) = wrap_ldf pylf
    /\ exactly_one_source pylf.
Proof.
  apply (@scan_hdf5_passes_exactly_one_source demo_engine (PPath "data.h5") None (Some "vaex")).
  reflexivity.
Defined.

(** C10.  When every position of an integer selector lies between minus
    the schema length and the schema length, [read_hdf5] raises nothing
    in the projection step: it selects one name per position, and a
    negative position [-k] stands for the k-th column from the end of the
    schema; the selection is made before the frame is collected. *)
Theorem read_hdf5_negative_positions `{E : Engine} (source : PyObj)
    (subgroup format : option string) (lf : LazyFrame) (ints : list Z) :
  scan_hdf5 source subgroup format = Ok lf ->
  (forall i, In i ints ->
     - Z.of_nat (length (lf_columns lf)) <= i < Z.of_nat (length (lf_columns lf))) ->
  exists names,
    read_hdf5 source subgroup format (Some (map ItemInt ints))
    = lf_collect (Select lf names)
    /\ length names = length ints
    /\ forall j k, nth_error ints j = Some (- k) -> 1 <= k ->
         nth_error names j = Some (nth_from_end (lf_columns lf) (Z.to_nat k)).
Proof.
  intros Hscan Hall.
  destruct (comprehension_python_positions (lf_columns lf) ints Hall)
    as [names [Hc [Hl Hn]]].
  exists names. split; [ | split; assumption].
  unfold read_hdf5. rewrite Hscan. simpl.
  rewrite is_int_sequence_ints, Hc. simpl.
  rewrite lf_select_names. reflexivity.
Qed.

Lemma read_hdf5_negative_positions_witness :
  exists names,
    @read_hdf5 demo_engine (PStr "data.h5") None None (Some (map ItemInt [-1; 0; -3]))
    = demo_collect (Select (wrap_ldf (new_from_hdf5 (Some "data.h5") [] None None)) names)
    /\ length names = 3%nat
    /\ forall j k, nth_error [-1; 0; -3] j = Some (- k) -> 1 <= k ->
         nth_error names j
         = Some (nth_from_end ["x"; "y"; "z"] (Z.to_nat k)).
Proof.
  apply (@read_hdf5_negative_positions demo_engine (PStr "data.h5") None None
           (wrap_ldf (new_from_hdf5 (Some "data.h5") [] None None)) [-1; 0; -3]).
  - reflexivity.
  - simpl. intros i [<- | [<- | [<- | []]]]; lia.
Defined.

(* ================================================================== *)
(** * Properties of [trans_func]                                       *)
(* ================================================================== *)

(** *** The rewriting of line 7 *)

Lemma re_sub_without_placeholders (value : string) :
  placeholders value = [] -> re_sub value = value.
Proof.
  unfold placeholders, re_sub, scan.
  induction value as [| c rest IH]; simpl; [reflexivity | ].
  destruct (Ascii.eqb c "{").
  - destruct (match_placeholder rest) as [ident |]; simpl; [discriminate | ].
    intro H. rewrite (IH H). reflexivity.
  - simpl. intro H. rewrite (IH H). reflexivity.
Qed.

(** *** Membership *)

Lemma mem_In (s : string) (l : list string) : mem s l = true <-> In s l.
Proof.
  unfold mem. rewrite existsb_exists. split.
  - intros [x [Hin Heq]]. apply String.eqb_eq in Heq. subst. exact Hin.
  - intro Hin. exists s. split; [exact Hin | apply String.eqb_refl].
Qed.

Lemma mem_not_In (s : string) (l : list string) : mem s l = false <-> ~ In s l.
Proof.
  rewrite <- mem_In. destruct (mem s l); split; intro H; try reflexivity;
    try discriminate; try (intro; discriminate). exfalso. apply H. reflexivity.
Qed.

(** *** What a successful call did *)

Lemma py_alias_ok_inv (v : PyValue) (name : string) (x : Expr) :
  py_alias v name = Ok x -> exists e, v = VExpr e /\ x = Alias e name.
Proof.
  unfold py_alias. intro H. destruct v; simpl in H; try discriminate.
  injection H as <-. eauto.
Qed.

Lemma trans_func_ok_inv (df : DataFrame) (name value : string) (df' : DataFrame) :
  trans_func df name value = Ok df' ->
  exists e v, py_eval (re_sub value) [("pl", pl)] = Ok (VExpr e)
    /\ first_missing (column_names df) e = None
    /\ eval_expr df e = Some v
    /\ df' = upsert df name (broadcast df v).
Proof.
  unfold trans_func. intro H.
  apply bind_ok_inv in H as [x [Hx H]].
  apply bind_ok_inv in H as [a [Ha H]].
  apply py_alias_ok_inv in Ha as [e [-> ->]].
  unfold with_columns in H. unfold first_missing in *. simpl in H.
  destruct (find _ (expr_columns e)) eqn:Hf; [discriminate | ].
  destruct (eval_expr df e) as [v |] eqn:Hv; [ | discriminate].
  injection H as <-. exists e, v. auto.
Qed.

Lemma trans_func_of_expr (df : DataFrame) (name value : string) (e : Expr) :
  py_eval (re_sub value) [("pl", pl)] = Ok (VExpr e) ->
  trans_func df name value = with_columns df (Alias e name).
Proof. unfold trans_func. intros ->. reflexivity. Qed.

(** *** The attach step *)

Lemma upsert_new (df : DataFrame) (name : string) (s : Series) :
  ~ In name (column_names df) -> upsert df name s = (df ++ [(name, s)])%list.
Proof.
  intro H. unfold upsert. apply mem_not_In in H. rewrite H. reflexivity.
Qed.

Lemma upsert_existing (df : DataFrame) (name : string) (s : Series) :
  In name (column_names df) ->
  upsert df name s
  = map (fun col => if String.eqb (fst col) name then (name, s) else col) df.
Proof.
  intro H. unfold upsert. apply mem_In in H. rewrite H. reflexivity.
Qed.

Lemma upsert_existing_names (df : DataFrame) (name : string) (s : Series) :
  In name (column_names df) -> column_names (upsert df name s) = column_names df.
Proof.
  intro H. rewrite (upsert_existing df name s H). unfold column_names.
  rewrite map_map. apply map_ext. intros [k old]. simpl.
  destruct (String.eqb k name) eqn:Hk; [ | reflexivity].
  apply String.eqb_eq in Hk. subst. reflexivity.
Qed.

Lemma upsert_holds (df : DataFrame) (name : string) (s : Series) :
  In (name, s) (upsert df name s).
Proof.
  unfold upsert. destruct (mem name (column_names df)) eqn:Hm.
  - apply mem_In in Hm. unfold column_names in Hm.
    apply in_map_iff in Hm as [[k old] [Hk Hin]]. simpl in Hk. subst k.
    apply in_map_iff. exists (name, old). split; [ | exact Hin].
    simpl. rewrite String.eqb_refl. reflexivity.
  - apply in_or_app. right. left. reflexivity.
Qed.

(** An expression whose value over the table without columns is a single
    number reads no column and has that value over every table. *)
Lemma eval_expr_constant (e : Expr) :
  forall k, eval_expr [] e = Some (Scalar k) ->
  expr_columns e = [] /\ forall df, eval_expr df e = Some (Scalar k).
Proof.
  induction e as [c | n | op l IHl r IHr | e IH name]; simpl; intros k H.
  - discriminate.
  - split; [reflexivity | ]. intro df. exact H.
  - destruct (eval_expr [] l) as [[x | s] |] eqn:Hl; try discriminate;
      destruct (eval_expr [] r) as [[y | t] |] eqn:Hr; try discriminate.
    destruct (IHl x eq_refl) as [Hcl Hdl]. destruct (IHr y eq_refl) as [Hcr Hdr].
    split; [rewrite Hcl, Hcr; reflexivity | ].
    intro df. rewrite Hdl, Hdr. exact H.
  - exact (IH k H).
Qed.

Lemma constant_value_spec (e : Expr) (k : Z) :
  constant_value e = Some k ->
  expr_columns e = [] /\ forall df, eval_expr df e = Some (Scalar k).
Proof.
  unfold constant_value. intro H. apply eval_expr_constant.
  destruct (eval_expr [] e) as [[x | s] |]; try discriminate.
  injection H as ->. reflexivity.
Qed.

(** *** One placeholder *)

Lemma string_app_empty (s : string) : s ++ "" = s.
Proof. induction s as [| c s IH]; simpl; [ | rewrite IH]; reflexivity. Qed.

Lemma take_while_stop (p : ascii -> bool) (s : string) (c : ascii) (rest : string) :
  all_chars p s = true -> p c = false ->
  take_while p (s ++ String c rest) = s.
Proof.
  intros Hs Hc. induction s as [| x s IH]; simpl in *.
  - rewrite Hc. reflexivity.
  - apply andb_prop in Hs as [Hx Hs]. rewrite Hx, (IH Hs). reflexivity.
Qed.

Lemma drop_while_stop (p : ascii -> bool) (s : string) (c : ascii) (rest : string) :
  all_chars p s = true -> p c = false ->
  drop_while p (s ++ String c rest) = String c rest.
Proof.
  intros Hs Hc. induction s as [| x s IH]; simpl in *.
  - rewrite Hc. reflexivity.
  - apply andb_prop in Hs as [Hx Hs]. rewrite Hx. exact (IH Hs).
Qed.

Lemma scan_from_skip (s t : string) (n : nat) :
  scan_from (String.length s + n) (s ++ t) = scan_from n t.
Proof. induction s as [| x s IH]; simpl; [reflexivity | exact IH]. Qed.

Lemma lex_from_skip (s t : string) (n : nat) :
  lex_from (String.length s + n) (s ++ t) = lex_from n t.
Proof. induction s as [| x s IH]; simpl; [reflexivity | exact IH]. Qed.

Lemma word_is_plain (c : ascii) : is_word c = true -> plain_in "'" c = true.
Proof.
  destruct c as [[] [] [] [] [] [] [] []]; vm_compute; intro H;
    solve [reflexivity | discriminate].
Qed.

Lemma all_chars_impl (p q : ascii -> bool) (s : string) :
  (forall c, p c = true -> q c = true) -> all_chars p s = true -> all_chars q s = true.
Proof.
  intro Hpq. induction s as [| c s IH]; simpl; [reflexivity | ].
  intro H. apply andb_prop in H as [Hc Hs]. rewrite (Hpq c Hc), (IH Hs). reflexivity.
Qed.

(** A template made of one placeholder is rewritten to one [pl.col] call. *)
Lemma re_sub_placeholder (z : string) :
  all_chars is_word z = true -> nonempty z = true ->
  re_sub ("{" ++ z ++ "}") = "pl.col('" ++ z ++ "')".
Proof.
  intros Hz Hn. unfold re_sub, scan. simpl.
  unfold match_placeholder.
  rewrite (take_while_stop is_word z "}" "" Hz eq_refl).
  rewrite (drop_while_stop is_word z "}" "" Hz eq_refl).
  rewrite Hn. simpl.
  replace (S (String.length z)) with (String.length z + 1)%nat by lia.
  rewrite scan_from_skip. simpl.
  rewrite string_app_empty. reflexivity.
Qed.

(** The evaluator turns that call into a column reference. *)
Lemma py_eval_column (z : string) :
  all_chars is_word z = true -> nonempty z = true ->
  py_eval ("pl.col('" ++ z ++ "')") [("pl", pl)] = Ok (VExpr (Col z)).
Proof.
  intros Hz Hn. unfold py_eval, lex.
  assert (Hlex : lex_from 0 ("pl.col('" ++ z ++ "')")
                 = Some [TName "pl"; TDot; TName "col"; TLParen; TStr z; TRParen]).
  { cbn -[plain_in].
    pose proof (all_chars_impl _ _ z word_is_plain Hz) as Hplain.
    rewrite (take_while_stop (plain_in "'") z "'" ")" Hplain eq_refl).
    rewrite (drop_while_stop (plain_in "'") z "'" ")" Hplain eq_refl).
    cbn.
    replace (S (String.length z)) with (String.length z + 1)%nat by lia.
    rewrite lex_from_skip. reflexivity. }
  rewrite Hlex. cbn. rewrite Hz, Hn. reflexivity.
Qed.

(** [{z}] over a table without [z], for every identifier [z]. *)
Lemma trans_func_missing_placeholder (df : DataFrame) (name z : string) :
  all_chars is_word z = true -> nonempty z = true ->
  ~ In z (column_names df) ->
  trans_func df name ("{" ++ z ++ "}") = Raise (unknown_column z (column_names df)).
Proof.
  intros Hz Hn Habsent.
  rewrite (trans_func_of_expr df name _ (Col z)).
  - unfold with_columns, first_missing. simpl.
    apply mem_not_In in Habsent. rewrite Habsent. reflexivity.
  - rewrite (re_sub_placeholder z Hz Hn). exact (py_eval_column z Hz Hn).
Qed.

(** X11.  For every identifier [z] that names a column of the table, the
    template [{z}] succeeds and attaches a copy of that column under the
    output name (the attach step being the engine's, as modelled above). *)
Lemma trans_func_present_placeholder (df : DataFrame) (name z : string) :
  all_chars is_word z = true -> nonempty z = true ->
  In z (column_names df) ->
  trans_func df name ("{" ++ z ++ "}") = Ok (upsert df name (get_column z df)).
Proof.
  intros Hz Hn Hpresent.
  rewrite (trans_func_of_expr df name _ (Col z)).
  - unfold with_columns, first_missing. simpl.
    apply mem_In in Hpresent. rewrite Hpresent. reflexivity.
  - rewrite (re_sub_placeholder z Hz Hn). exact (py_eval_column z Hz Hn).
Qed.

(** ** Claims about [TC_expressions.py] *)

(** C1.  The template [__import__('os')] is neither a column reference
    nor an engine operator or function: the rewriting of line 7 leaves it
    as it is and line 9 hands it to the host evaluator.  The name
    [__import__] is not among the globals given to [eval], which hold
    [pl] only, yet it resolves to the built-in function; the call is run,
    the module [os] is imported and returned, and [trans_func] ends on the
    [AttributeError] of [.alias], not on a rejection of the template. *)
Theorem trans_func_evaluates_import :
  re_sub "__import__('os')" = "__import__('os')"
  /\ lookup "__import__" [("pl", pl)] = None
  /\ py_eval "__import__('os')" [("pl", pl)] = Ok (VModule "os")
  /\ trans_func ab_table "c" "__import__('os')"
     = Raise (mkExc "AttributeError" "module 'os' has no attribute 'alias'").
Proof. repeat split; reflexivity. Qed.

(** C4.  For the template [{a} + {b}] over the table with [a = [1, 2]] and
    [b = [3, 4]], [trans_func] returns a table that holds the column
    [[4, 6]] under the requested name, whatever that name is. *)
Theorem trans_func_a_plus_b (name : string) :
  exists df', trans_func ab_table name "{a} + {b}" = Ok df'
    /\ df' = upsert ab_table name [4; 6]
    /\ In (name, [4; 6]) df'.
Proof.
  exists (upsert ab_table name [4; 6]).
  split; [reflexivity | split; [reflexivity | apply upsert_holds]].
Qed.

(** C6.  When [trans_func] succeeds, the table it returns is the input
    with one column attached under the output name.  If the input has a
    column of that name, the result has the same length and, position by
    position, the same columns, except that the column of that name now
    holds the new values; otherwise the result is the input followed by
    the new column. *)
Theorem trans_func_frame (df : DataFrame) (name value : string) (df' : DataFrame) :
  trans_func df name value = Ok df' ->
  exists s,
    (In name (column_names df) ->
       length df' = length df
       /\ column_names df' = column_names df
       /\ forall i col, nth_error df i = Some col ->
            nth_error df' i
            = Some (if String.eqb (fst col) name then (name, s) else col))
    /\ (~ In name (column_names df) -> df' = (df ++ [(name, s)])%list).
Proof.
  intro H. apply trans_func_ok_inv in H as [e [v [_ [_ [_ ->]]]]].
  exists (broadcast df v). split.
  - intro Hin. split; [ | split].
    + rewrite (upsert_existing _ _ _ Hin). apply length_map.
    + apply upsert_existing_names. exact Hin.
    + intros i col Hi. rewrite (upsert_existing _ _ _ Hin).
      apply map_nth_error with (f := fun c : Column =>
        if String.eqb (fst c) name then (name, broadcast df v) else c).
      exact Hi.
  - apply upsert_new.
Qed.

Lemma trans_func_frame_witness :
  exists s,
    (In "a" (column_names ab_table) ->
       length [("a", [4; 6]); ("b", [3; 4])] = length ab_table
       /\ column_names [("a", [4; 6]); ("b", [3; 4])] = column_names ab_table
       /\ forall i col, nth_error ab_table i = Some col ->
            nth_error [("a", [4; 6]); ("b", [3; 4])] i
            = Some (if String.eqb (fst col) "a" then ("a", s) else col))
    /\ (~ In "a" (column_names ab_table) ->
          [("a", [4; 6]); ("b", [3; 4])] = (ab_table ++ [("a", s)])%list).
Proof.
  apply (trans_func_frame ab_table "a" "{a} + {b}"). reflexivity.
Defined.




(** C8 (counterexample).  The template [1] holds no placeholder, and
    [trans_func] does not succeed on it: the evaluator returns the integer
    1, which has no [alias]. *)
Lemma trans_func_bare_literal_fails :
  placeholders "1" = []
  /\ ~ (exists df', trans_func ab_table "c" "1" = Ok df').
Proof.
  split; [reflexivity | ].
  intros [df' H]. vm_compute in H. discriminate.
Qed.

(** C8 (amended).  A template without placeholders reaches the evaluator
    unchanged.  When it evaluates to an engine expression whose value is
    a constant [k], such as [pl.lit(7)] with the value 7, [trans_func]
    succeeds and the output column holds [k] in every row of the result (a
    table without any column gets one row). *)
Theorem trans_func_constant_template (df : DataFrame) (name value : string)
    (e : Expr) (k : Z) :
  placeholders value = [] ->
  py_eval value [("pl", pl)] = Ok (VExpr e) ->
  constant_value e = Some k ->
  re_sub value = value
  /\ trans_func df name value = Ok (upsert df name (repeat k (literal_rows df))).
Proof.
  intros Hp Hev Hk.
  pose proof (re_sub_without_placeholders value Hp) as Hre.
  split; [exact Hre | ].
  destruct (constant_value_spec e k Hk) as [Hcols Hval].
  rewrite <- Hre in Hev.
  rewrite (trans_func_of_expr df name value e Hev).
  unfold with_columns, first_missing. simpl. rewrite Hcols. simpl.
  rewrite (Hval df). reflexivity.
Qed.

Lemma trans_func_constant_template_witness :
  re_sub "pl.lit(2) * 3 + 1" = "pl.lit(2) * 3 + 1"
  /\ trans_func ab_table "c" "pl.lit(2) * 3 + 1"
     = Ok (upsert ab_table "c" (repeat 7 (literal_rows ab_table))).
Proof.
  apply (trans_func_constant_template ab_table "c" "pl.lit(2) * 3 + 1"
           (BinE Add (BinE Mul (Lit 2) (Lit 3)) (Lit 1)) 7).
  - reflexivity.
  - reflexivity.
  - reflexivity.
Defined.

(* ================================================================== *)
(** * Further properties of [functions.py]                             *)
(* ================================================================== *)

Lemma py_getitem_modulo (schema : list string) (i : Z) :
  - Z.of_nat (length schema) <= i < Z.of_nat (length schema) ->
  py_getitem schema i = Ok (column_at schema i).
Proof.
  intro Hi. unfold column_at.
  destruct (Z_lt_ge_dec i 0) as [Hneg | Hpos].
  - replace i with (- - i) at 1 by lia.
    rewrite (py_getitem_back schema (- i) "") by lia.
    replace (i mod Z.of_nat (length schema)) with (i + Z.of_nat (length schema)).
    + do 2 f_equal. lia.
    + rewrite <- (Z.mod_small (i + Z.of_nat (length schema)) (Z.of_nat (length schema))) by lia.
      replace (i + Z.of_nat (length schema)) with (i + 1 * Z.of_nat (length schema)) by lia.
      apply Z.mod_add. lia.
  - rewrite (py_getitem_front schema i "") by lia.
    rewrite Z.mod_small by lia. reflexivity.
Qed.

Lemma comprehension_positions_modulo (schema : list string) (ints : list Z) :
  (forall i, In i ints -> - Z.of_nat (length schema) <= i < Z.of_nat (length schema)) ->
  comprehension (item_position schema) (map ItemInt ints)
  = Ok (map ItemStr (map (column_at schema) ints)).
Proof.
  induction ints as [| i ints IH]; simpl; intro Hall; [reflexivity | ].
  rewrite (py_getitem_modulo schema i) by (apply Hall; auto).
  simpl. rewrite IH by (intros j Hj; apply Hall; auto). reflexivity.
Qed.

(** X1.  A source that is neither a [str] nor a [Path] makes [read_hdf5]
    fail with the error of line 109 whatever the selector is: the source
    is checked before the columns are looked at. *)
Theorem read_hdf5_rejects_source_first `{E : Engine} (source : PyObj)
    (subgroup format : option string) (columns : option (list ColItem)) :
  path_like source = false ->
  read_hdf5 source subgroup format columns = Raise invalid_source.
Proof.
  intro H. unfold read_hdf5.
  destruct source; simpl in *; try discriminate; reflexivity.
Qed.

Lemma read_hdf5_rejects_source_first_witness :
  @read_hdf5 demo_engine (PList [PStr "a.h5"]) None None (Some [ItemInt 99])
  = Raise invalid_source.
Proof.
  apply (@read_hdf5_rejects_source_first demo_engine). reflexivity.
Defined.

(** X2.  A selector made of names, empty or not, reaches [select] as it
    is: same order, duplicates kept, and the schema is not consulted.  In
    particular the empty list selects no column; it does not stand for an
    absent selector. *)
Theorem read_hdf5_names_pass_through `{E : Engine} (source : PyObj)
    (subgroup format : option string) (lf : LazyFrame) (names : list string) :
  scan_hdf5 source subgroup format = Ok lf ->
  read_hdf5 source subgroup format (Some (map ItemStr names))
  = lf_collect (Select lf names).
Proof.
  intro Hscan. unfold read_hdf5. rewrite Hscan. simpl.
  destruct names as [| n names]; [reflexivity | ].
  change (is_int_sequence (map ItemStr (n :: names))) with false. cbv iota.
  change (bind (Ok (map ItemStr (n :: names))) (fun columns => lf_select lf columns))
    with (lf_select lf (map ItemStr (n :: names))).
  rewrite (lf_select_names lf (n :: names)). reflexivity.
Qed.

Lemma read_hdf5_names_pass_through_witness :
  @read_hdf5 demo_engine (PStr "data.h5") None None
    (Some (map ItemStr ["z"; "x"; "z"]))
  = demo_collect (Select (wrap_ldf (new_from_hdf5 (Some "data.h5") [] None None))
                    ["z"; "x"; "z"]).
Proof.
  apply (@read_hdf5_names_pass_through demo_engine (PStr "data.h5") None None).
  reflexivity.
Defined.

(** X3.  With an integer selector, a position outside the Python range of
    the schema, below minus its length or at or beyond its length, makes
    [read_hdf5] raise [IndexError], wherever it stands in the selector and
    whatever the other positions are.  The message is "list index out of
    range" when every position fits in a machine index; otherwise it may
    be "cannot fit 'int' into an index-sized integer". *)
Theorem read_hdf5_position_outside `{E : Engine} (source : PyObj)
    (subgroup format : option string) (lf : LazyFrame) (ints : list Z) (i : Z) :
  scan_hdf5 source subgroup format = Ok lf ->
  In i ints ->
  i < - Z.of_nat (length (lf_columns lf)) \/ Z.of_nat (length (lf_columns lf)) <= i ->
  exists e,
    read_hdf5 source subgroup format (Some (map ItemInt ints)) = Raise e
    /\ exc_class e = "IndexError"
    /\ (exc_msg e = "list index out of range"
        \/ exc_msg e = "cannot fit 'int' into an index-sized integer")
    /\ ((forall j, In j ints -> fits_index j = true) -> e = index_error).
Proof.
  intros Hscan Hin Hout. unfold read_hdf5. rewrite Hscan. simpl.
  rewrite is_int_sequence_ints.
  destruct (comprehension_positions_fail (lf_columns lf) ints i Hin Hout) as [j [Hj Hc]].
  exists (index_failure j). rewrite Hc. simpl.
  destruct (index_failure_fixed j) as [Hclass Hmsg].
  repeat split; auto.
  intro Hfit. unfold index_failure. rewrite (Hfit j Hj). reflexivity.
Qed.

Lemma read_hdf5_position_outside_witness :
  exists e,
    @read_hdf5 demo_engine (PStr "data.h5") None None
      (Some (map ItemInt [1; - 2 ^ 70; 0])) = Raise e
    /\ exc_class e = "IndexError"
    /\ (exc_msg e = "list index out of range"
        \/ exc_msg e = "cannot fit 'int' into an index-sized integer")
    /\ ((forall j, In j [1; - 2 ^ 70; 0] -> fits_index j = true) -> e = index_error).
Proof.
  apply (@read_hdf5_position_outside demo_engine (PStr "data.h5") None None
           (wrap_ldf (new_from_hdf5 (Some "data.h5") [] None None))
           [1; - 2 ^ 70; 0] (- 2 ^ 70)).
  - reflexivity.
  - simpl. auto.
  - left. simpl. lia.
Defined.

(** X4.  With an integer selector whose positions all lie in the Python
    range of the schema, [read_hdf5] collects the frame projected on the
    columns at these positions taken modulo the schema length, in the
    order of the selector and with its repetitions. *)
Theorem read_hdf5_positions_modulo `{E : Engine} (source : PyObj)
    (subgroup format : option string) (lf : LazyFrame) (ints : list Z) :
  scan_hdf5 source subgroup format = Ok lf ->
  (forall i, In i ints ->
     - Z.of_nat (length (lf_columns lf)) <= i < Z.of_nat (length (lf_columns lf))) ->
  read_hdf5 source subgroup format (Some (map ItemInt ints))
  = lf_collect (Select lf (map (column_at (lf_columns lf)) ints)).
Proof.
  intros Hscan Hall. unfold read_hdf5. rewrite Hscan. simpl.
  rewrite is_int_sequence_ints.
  rewrite (comprehension_positions_modulo (lf_columns lf) ints Hall). simpl.
  rewrite lf_select_names. reflexivity.
Qed.

Lemma read_hdf5_positions_modulo_witness :
  @read_hdf5 demo_engine (PStr "data.h5") None None (Some (map ItemInt [2; -3; 2; -1]))
  = Ok [("z", [5; 6]); ("x", [1; 2]); ("z", [5; 6]); ("z", [5; 6])].
Proof.
  apply (@read_hdf5_positions_modulo demo_engine (PStr "data.h5") None None
           (wrap_ldf (new_from_hdf5 (Some "data.h5") [] None None)) [2; -3; 2; -1]).
  - reflexivity.
  - simpl. intros i [<- | [<- | [<- | [<- | []]]]]; lia.
Defined.

(** X5.  [_scan_hdf5_impl] never sets both source arguments of the engine
    call, and it sets exactly one of them unless it is given the empty
    list, for which both stay unset. *)
Theorem _scan_hdf5_impl_sources (source : ImplSource) (subgroup format : option string) :
  exists pylf,
    _scan_hdf5_impl source subgroup format = wrap_ldf pylf
    /\ (arg_source pylf = None \/ arg_sources pylf = [])
    /\ (exactly_one_source pylf <-> source <> ManySources []).
Proof.
  destruct source as [s | l]; simpl; eexists; (split; [reflexivity | ]); simpl.
  - split; [auto | ]. split; [discriminate | ].
    intros _. left. split; [discriminate | reflexivity].
  - split; [auto | ]. unfold exactly_one_source. simpl. split.
    + intros [[H _] | [_ H]]; [contradiction | ]. congruence.
    + intro H. right. split; [reflexivity | congruence].
Qed.

(* ================================================================== *)
(** * Further properties of the rewriting of line 7                    *)
(* ================================================================== *)

Lemma string_app_assoc (a b c : string) : (a ++ b) ++ c = a ++ b ++ c.
Proof. induction a as [| x a IH]; simpl; [ | rewrite IH]; reflexivity. Qed.

Lemma all_chars_take_while (p : ascii -> bool) (s : string) :
  all_chars p (take_while p s) = true.
Proof.
  induction s as [| c s IH]; simpl; [reflexivity | ].
  destruct (p c) eqn:Hc; simpl; [rewrite Hc, IH | ]; reflexivity.
Qed.

Lemma all_chars_drop_while (p q : ascii -> bool) (s : string) :
  all_chars p s = true -> all_chars p (drop_while q s) = true.
Proof.
  induction s as [| c s IH]; simpl; [reflexivity | ].
  intro H. apply andb_prop in H as [Hc Hs].
  destruct (q c); simpl; [exact (IH Hs) | rewrite Hc, Hs; reflexivity].
Qed.

Lemma match_placeholder_closes (s : string) :
  match_placeholder s
  = if closes s && nonempty (take_while is_word s)
    then Some (take_while is_word s) else None.
Proof.
  unfold match_placeholder, closes.
  destruct (drop_while is_word s) as [| c rest]; reflexivity.
Qed.

Lemma match_placeholder_some (s z : string) :
  match_placeholder s = Some z ->
  z = take_while is_word s /\ nonempty z = true /\ closes s = true.
Proof.
  rewrite match_placeholder_closes.
  destruct (closes s); simpl; [ | discriminate].
  destruct (nonempty (take_while is_word s)) eqn:Hn; [ | discriminate].
  intro H. injection H as <-. auto.
Qed.

Lemma word_not_open (c : ascii) : is_word c = true -> not_open c = true.
Proof.
  destruct c as [[] [] [] [] [] [] [] []]; vm_compute; intro H;
    solve [reflexivity | discriminate].
Qed.

Lemma word_not_close (c : ascii) : is_word c = true -> Ascii.eqb c "}" = false.
Proof.
  destruct c as [[] [] [] [] [] [] [] []]; vm_compute; intro H;
    solve [reflexivity | discriminate].
Qed.

(** Text without an opening brace is copied and hides no placeholder. *)
Lemma render_brace_free (a b : string) :
  all_chars not_open a = true ->
  render_all (scan_from 0 (a ++ b)) = a ++ render_all (scan_from 0 b).
Proof.
  induction a as [| c a IH]; simpl; [reflexivity | ].
  intro H. apply andb_prop in H as [Hc Ha].
  unfold not_open in Hc. apply negb_true_iff in Hc. rewrite Hc. simpl.
  rewrite (IH Ha). reflexivity.
Qed.

Lemma placeholders_brace_free (a b : string) :
  all_chars not_open a = true ->
  placeholders_of (scan_from 0 (a ++ b)) = placeholders_of (scan_from 0 b).
Proof.
  induction a as [| c a IH]; simpl; [reflexivity | ].
  intro H. apply andb_prop in H as [Hc Ha].
  unfold not_open in Hc. apply negb_true_iff in Hc. rewrite Hc. simpl.
  exact (IH Ha).
Qed.

(** The scan at a placeholder. *)
Lemma scan_placeholder (z post : string) :
  all_chars is_word z = true -> nonempty z = true ->
  scan_from 0 ("{" ++ z ++ "}" ++ post) = Placeholder z :: scan_from 0 post.
Proof.
  intros Hz Hn. simpl. unfold match_placeholder.
  rewrite (take_while_stop is_word z "}" post Hz eq_refl).
  rewrite (drop_while_stop is_word z "}" post Hz eq_refl).
  rewrite Hn. simpl.
  replace (S (String.length z)) with (String.length z + 1)%nat by lia.
  rewrite scan_from_skip. reflexivity.
Qed.

Lemma re_sub_step (pre z post : string) :
  all_chars not_open pre = true ->
  all_chars is_word z = true -> nonempty z = true ->
  re_sub (pre ++ "{" ++ z ++ "}" ++ post) = pre ++ "pl.col('" ++ z ++ "')" ++ re_sub post.
Proof.
  intros Hpre Hz Hn. unfold re_sub, scan.
  rewrite (render_brace_free pre _ Hpre).
  rewrite (scan_placeholder z post Hz Hn). simpl.
  rewrite !string_app_assoc. reflexivity.
Qed.

(** The rewriting never turns an unclosed run into a closed one. *)
Lemma closes_rewritten (s : string) :
  closes (render_all (scan_from 0 s)) = true -> closes s = true.
Proof.
  induction s as [| c rest IH]; simpl; [auto | ].
  destruct (Ascii.eqb c "{") eqn:Hc.
  - apply Ascii.eqb_eq in Hc. subst c.
    destruct (match_placeholder rest) as [ident |]; simpl; intro H;
      vm_compute in H; discriminate.
  - simpl. unfold closes. simpl.
    destruct (is_word c); [exact IH | auto].
Qed.

Lemma match_placeholder_rewritten (s : string) :
  match_placeholder s = None ->
  match_placeholder (render_all (scan_from 0 s)) = None.
Proof.
  rewrite !match_placeholder_closes.
  destruct (closes (render_all (scan_from 0 s))) eqn:Hout; [ | reflexivity].
  rewrite (closes_rewritten s Hout). simpl.
  destruct s as [| c rest]; [reflexivity | ].
  simpl in Hout |- *.
  destruct (is_word c) eqn:Hw; simpl; [discriminate | ]. intros _.
  destruct (Ascii.eqb c "{") eqn:Hc.
  - apply Ascii.eqb_eq in Hc. subst c.
    destruct (match_placeholder rest); simpl in Hout; vm_compute in Hout; discriminate.
  - simpl. rewrite Hw. reflexivity.
Qed.

Lemma rewritten_has_no_placeholder (s : string) :
  forall skip, placeholders_of (scan_from 0 (render_all (scan_from skip s))) = [].
Proof.
  induction s as [| c rest IH]; intro skip; simpl; [reflexivity | ].
  destruct skip as [| k]; [ | exact (IH k)].
  destruct (Ascii.eqb c "{") eqn:Hc.
  - apply Ascii.eqb_eq in Hc. subst c.
    destruct (match_placeholder rest) as [ident |] eqn:Hm.
    + apply match_placeholder_some in Hm as [Hid [Hn _]].
      assert (Hw : all_chars not_open ident = true).
      { apply (all_chars_impl is_word); [exact word_not_open | ].
        rewrite Hid. apply all_chars_take_while. }
      cbn [render_all render].
      change ("pl.col('" ++ ident ++ "')") with ("pl.col('" ++ (ident ++ "')")).
      rewrite !string_app_assoc.
      rewrite (placeholders_brace_free "pl.col('" _ eq_refl).
      rewrite (placeholders_brace_free ident _ Hw).
      rewrite (placeholders_brace_free "')" _ eq_refl).
      exact (IH _).
    + cbn [render_all render]. simpl.
      rewrite (match_placeholder_rewritten rest Hm). simpl. exact (IH 0%nat).
  - cbn [render_all render]. simpl. rewrite Hc. simpl. exact (IH 0%nat).
Qed.

Lemma no_open_no_placeholder (s : string) :
  all_chars not_open s = true -> placeholders s = [].
Proof.
  intro H. unfold placeholders, scan.
  rewrite <- (string_app_empty s). rewrite (placeholders_brace_free s "" H). reflexivity.
Qed.

Lemma closes_has_close (s : string) :
  closes s = true -> all_chars not_close s = false.
Proof.
  unfold closes. intro H.
  destruct (all_chars not_close s) eqn:Hall; [ | reflexivity].
  pose proof (all_chars_drop_while not_close is_word s Hall) as Hd.
  destruct (drop_while is_word s) as [| c rest]; [discriminate | ].
  simpl in Hd. unfold not_close in Hd at 1. rewrite H in Hd. discriminate.
Qed.

Lemma no_close_no_placeholder (s : string) :
  all_chars not_close s = true -> placeholders s = [].
Proof.
  unfold placeholders, scan.
  induction s as [| c rest IH]; simpl; [reflexivity | ].
  intro H. apply andb_prop in H as [_ Hrest].
  destruct (Ascii.eqb c "{").
  - destruct (match_placeholder rest) as [ident |] eqn:Hm.
    + apply match_placeholder_some in Hm as [_ [_ Hcl]].
      apply closes_has_close in Hcl. congruence.
    + simpl. exact (IH Hrest).
  - simpl. exact (IH Hrest).
Qed.

(** X8.  The rewritten text holds no placeholder any more, so rewriting
    it again changes nothing. *)
Theorem re_sub_idempotent (value : string) :
  placeholders (re_sub value) = [] /\ re_sub (re_sub value) = re_sub value.
Proof.
  assert (H : placeholders (re_sub value) = []).
  { unfold placeholders, re_sub, scan. apply rewritten_has_no_placeholder. }
  split; [exact H | apply re_sub_without_placeholders; exact H].
Qed.

(** X9.  A placeholder that follows text without an opening brace is
    replaced by [pl.col('identifier')]; the text before it is kept and the
    rewriting goes on right after its closing brace. *)
Theorem re_sub_replaces_placeholder (pre z post : string) :
  all_chars not_open pre = true ->
  all_chars is_word z = true -> nonempty z = true ->
  re_sub (pre ++ "{" ++ z ++ "}" ++ post) = pre ++ "pl.col('" ++ z ++ "')" ++ re_sub post.
Proof. exact (re_sub_step pre z post). Qed.

Lemma re_sub_replaces_placeholder_witness :
  re_sub ("2 * " ++ "{" ++ "a" ++ "}" ++ " - {b}") = "2 * " ++ "pl.col('" ++ "a" ++ "')" ++ re_sub " - {b}".
Proof.
  apply (re_sub_replaces_placeholder "2 * " "a" " - {b}"); reflexivity.
Defined.

(** X10.  A template in which no opening brace, or no closing brace,
    occurs is left as it is: braces that cannot pair up are not
    touched. *)
Theorem re_sub_unpaired_braces (value : string) :
  all_chars not_open value = true \/ all_chars not_close value = true ->
  re_sub value = value.
Proof.
  intros [H | H]; apply re_sub_without_placeholders.
  - exact (no_open_no_placeholder value H).
  - exact (no_close_no_placeholder value H).
Qed.

Lemma re_sub_unpaired_braces_witness : re_sub "{a + {b" = "{a + {b".
Proof.
  apply (re_sub_unpaired_braces "{a + {b"). right. reflexivity.
Defined.

(* ================================================================== *)
(** * Further properties of [trans_func]                               *)
(* ================================================================== *)

Lemma lex_col_call (z rest : string) :
  all_chars is_word z = true ->
  lex_from 0 ("pl.col('" ++ z ++ "')" ++ rest)
  = option_map (app [TName "pl"; TDot; TName "col"; TLParen; TStr z; TRParen])
      (lex_from 0 rest).
Proof.
  intro Hz.
  pose proof (all_chars_impl _ _ z word_is_plain Hz) as Hplain.
  cbn -[plain_in].
  rewrite (take_while_stop (plain_in "'") z "'" (String ")" rest) Hplain eq_refl).
  rewrite (drop_while_stop (plain_in "'") z "'" (String ")" rest) Hplain eq_refl).
  cbn.
  replace (S (String.length z)) with (String.length z + 1)%nat by lia.
  rewrite lex_from_skip. cbn.
  destruct (lex_from 0 rest); reflexivity.
Qed.

Lemma re_sub_binary (op : BinOp) (x y : string) :
  all_chars is_word x = true -> nonempty x = true ->
  all_chars is_word y = true -> nonempty y = true ->
  re_sub ("{" ++ x ++ "} " ++ op_symbol op ++ " {" ++ y ++ "}")
  = "pl.col('" ++ x ++ "')" ++ " " ++ op_symbol op ++ " " ++ "pl.col('" ++ y ++ "')".
Proof.
  intros Hx Hnx Hy Hny.
  change ("{" ++ x ++ "} " ++ op_symbol op ++ " {" ++ y ++ "}")
    with ("" ++ "{" ++ x ++ "}" ++ (" " ++ op_symbol op ++ " {" ++ y ++ "}")).
  rewrite (re_sub_step "" x _ eq_refl Hx Hnx).
  destruct op; simpl op_symbol.
  - change (" " ++ "+" ++ " {" ++ y ++ "}") with (" + " ++ "{" ++ y ++ "}" ++ "").
    rewrite (re_sub_step " + " y "" eq_refl Hy Hny). reflexivity.
  - change (" " ++ "-" ++ " {" ++ y ++ "}") with (" - " ++ "{" ++ y ++ "}" ++ "").
    rewrite (re_sub_step " - " y "" eq_refl Hy Hny). reflexivity.
  - change (" " ++ "*" ++ " {" ++ y ++ "}") with (" * " ++ "{" ++ y ++ "}" ++ "").
    rewrite (re_sub_step " * " y "" eq_refl Hy Hny). reflexivity.
Qed.

Lemma py_eval_binary (op : BinOp) (x y : string) :
  all_chars is_word x = true -> nonempty x = true ->
  all_chars is_word y = true -> nonempty y = true ->
  py_eval ("pl.col('" ++ x ++ "')" ++ " " ++ op_symbol op ++ " " ++ "pl.col('" ++ y ++ "')")
    [("pl", pl)]
  = Ok (VExpr (BinE op (Col x) (Col y))).
Proof.
  intros Hx Hnx Hy Hny. unfold py_eval, lex.
  rewrite (lex_col_call x _ Hx).
  assert (Hrest : lex_from 0 (" " ++ op_symbol op ++ " " ++ "pl.col('" ++ y ++ "')")
            = Some ((match op with Add => TPlus | Sub => TMinus | Mul => TStar end)
                    :: [TName "pl"; TDot; TName "col"; TLParen; TStr y; TRParen])).
  { destruct op.
    - change (lex_from 0 (" " ++ op_symbol Add ++ " " ++ "pl.col('" ++ y ++ "')"))
        with (cons_token TPlus (lex_from 0 ("pl.col('" ++ y ++ "')" ++ ""))).
      rewrite (lex_col_call y "" Hy). reflexivity.
    - change (lex_from 0 (" " ++ op_symbol Sub ++ " " ++ "pl.col('" ++ y ++ "')"))
        with (cons_token TMinus (lex_from 0 ("pl.col('" ++ y ++ "')" ++ ""))).
      rewrite (lex_col_call y "" Hy). reflexivity.
    - change (lex_from 0 (" " ++ op_symbol Mul ++ " " ++ "pl.col('" ++ y ++ "')"))
        with (cons_token TStar (lex_from 0 ("pl.col('" ++ y ++ "')" ++ ""))).
      rewrite (lex_col_call y "" Hy). reflexivity. }
  rewrite Hrest. destruct op; cbn; rewrite Hx, Hnx, Hy, Hny; reflexivity.
Qed.

(** X12.  For every two identifiers that name columns of the table and
    every operator among [+], [-], [*], the template [{x} op {y}] succeeds
    and attaches, under the output name, the column obtained by applying
    the operator row by row with 64-bit wrap-around (the evaluation and
    the attach step being the engine's, as modelled above, over tables of
    64-bit integer columns). *)
Theorem trans_func_binary (df : DataFrame) (name : string) (op : BinOp) (x y : string) :
  all_chars is_word x = true -> nonempty x = true ->
  all_chars is_word y = true -> nonempty y = true ->
  In x (column_names df) -> In y (column_names df) ->
  trans_func df name ("{" ++ x ++ "} " ++ op_symbol op ++ " {" ++ y ++ "}")
  = Ok (upsert df name (zip_with (col_op op) (get_column x df) (get_column y df))).
Proof.
  intros Hx Hnx Hy Hny Hinx Hiny.
  rewrite (trans_func_of_expr df name _ (BinE op (Col x) (Col y))).
  - unfold with_columns, first_missing. simpl.
    apply mem_In in Hinx. apply mem_In in Hiny. rewrite Hinx, Hiny. reflexivity.
  - rewrite (re_sub_binary op x y Hx Hnx Hy Hny).
    exact (py_eval_binary op x y Hx Hnx Hy Hny).
Qed.

Lemma trans_func_binary_witness :
  trans_func [("a", [2 ^ 63 - 1; 1]); ("b", [1; 1])] "c"
    ("{" ++ "a" ++ "} " ++ op_symbol Add ++ " {" ++ "b" ++ "}")
  = Ok [("a", [2 ^ 63 - 1; 1]); ("b", [1; 1]); ("c", [- 2 ^ 63; 2])].
Proof.
  apply (trans_func_binary [("a", [2 ^ 63 - 1; 1]); ("b", [1; 1])] "c" Add "a" "b");
    try reflexivity; simpl; auto.
Defined.

Lemma trans_func_present_placeholder_witness :
  trans_func ab_table "c" ("{" ++ "b" ++ "}")
  = Ok (upsert ab_table "c" (get_column "b" ab_table)).
Proof.
  apply (trans_func_present_placeholder ab_table "c" "b"); try reflexivity.
  simpl. auto.
Defined.
